(** * A shallow embedding of the data pipeline of [src/app.py]

    The dashboard is a Streamlit script over pandas data frames.  The parts
    modelled here are the row normalisations ([get_data], [get_mail_data],
    [get_fb_ads_data]), the sidebar filters of the AO and Google Analytics
    pages, the [groupby] aggregations behind the charts, the conversion
    ratios, [get_mailgun_stats], and the page dispatch that decides which
    names are bound when the Financial Impact page computes its Meta ROI.

    Conventions:
    - a calendar day ([datetime.date]) is a [Z] (a day number);
    - a spreadsheet cell is an [option string]; [None] is pandas' NaN (the
      key is missing from the record);
    - numbers that pandas holds as floats are rationals [Q];
    - a Python exception is the [Raise] constructor of [result]. *)

From Stdlib Require Import List ZArith QArith String Ascii Bool Lia Sorting.Sorted.
From Stdlib Require Import Structures.OrderedTypeEx QArith.Qround Lqa.
Import ListNotations.
Open Scope string_scope.
Open Scope Z_scope.

(** ** Python exceptions and a small error monad *)

Inductive exn : Type :=
| KeyError
| ValueError
| TypeError
| IndexError
| AttributeError
| ZeroDivisionError
| RequestError.

Inductive result (A : Type) : Type :=
| Ok (a : A)
| Raise (e : exn).
Arguments Ok {A} a.
Arguments Raise {A} e.

Definition bind {A B : Type} (m : result A) (f : A -> result B) : result B :=
  match m with
  | Ok a => f a
  | Raise e => Raise e
  end.

Notation "x <- m ;; k" := (bind m (fun x => k))
  (at level 61, m at next level, right associativity).

Fixpoint mapM {A B : Type} (f : A -> result B) (l : list A) : result (list B) :=
  match l with
  | [] => Ok []
  | x :: t => y <- f x ;; ys <- mapM f t ;; Ok (y :: ys)
  end.

(** ** Cells *)

Definition cell := option string.

(** [Series.notna] *)
Definition notna (c : cell) : bool :=
  match c with Some _ => true | None => false end.

(** [Series.isin values]: pandas matches NaN against a NaN in [values]. *)
Definition cell_eqb (a b : cell) : bool :=
  match a, b with
  | Some x, Some y => String.eqb x y
  | None, None => true
  | _, _ => false
  end.

Definition isin (c : cell) (values : list cell) : bool :=
  existsb (cell_eqb c) values.

(** ** The tender-tracking (AO) table, as [get_data] returns it *)

Record ao_row : Type := mk_ao_row {
  Date : option Z;      (* [NaT] is [None] *)
  Source : cell;
  Status : cell;
  Nombre : Q
}.

(** Comparisons of a [date] column against a [date]: [NaT] compares false. *)
Definition date_ge (d : option Z) (x : Z) : bool :=
  match d with Some d => Z.leb x d | None => false end.

Definition date_le (d : option Z) (x : Z) : bool :=
  match d with Some d => Z.leb d x | None => false end.

(** The AO sidebar filter (lines 267-272):
<<
    if len(date_range) == 2:
        start_date, end_date = date_range
        df_filtered = df[(df["Date"] >= start_date) & (df["Date"] <= end_date) &
                         (df["Source"].isin(sources)) & (df["Status"].isin(status_list))]
    else:
        df_filtered = df
>> *)
Definition ao_filter (date_range : list Z) (sources status_list : list cell)
    (df : list ao_row) : list ao_row :=
  match date_range with
  | [start_date; end_date] =>
      filter (fun r => date_ge (Date r) start_date && date_le (Date r) end_date
                       && isin (Source r) sources && isin (Status r) status_list) df
  | _ => df
  end.

(** ** The Google Analytics table after its numeric conversion *)

(** A float that pandas may hold after a division: [inf], [-inf], [nan]. *)
Inductive pyfloat : Type :=
| Fin (q : Q)
| PInf
| NInf
| NaN.

(** [x / y] on floats *)
Definition fdiv (x y : Q) : pyfloat :=
  if Qeq_bool y 0 then
    if Qeq_bool x 0 then NaN else if Qlt_le_dec 0 x then PInf else NInf
  else Fin (x / y).

(** [.replace([float("inf")], 0).fillna(0)] *)
Definition replace_inf_fillna (f : pyfloat) : pyfloat :=
  match f with
  | PInf => Fin 0
  | NaN => Fin 0
  | f => f
  end.

(** [x > 1] *)
Definition fgt1 (f : pyfloat) : bool :=
  match f with
  | Fin q => negb (Qle_bool q 1)
  | PInf => true
  | _ => false
  end.

Record ga_row : Type := mk_ga_row {
  ga_date : string;
  sessionDefaultChannelGroup : string;
  country : string;
  pagePath : string;
  activeUsers : Q;
  newUsers : Q;
  sessions : Q;
  screenPageViews : Q;
  userEngagementDuration : Q;
  engagementRate : Q
}.

(** [df_master["avgSessionDurationSec"]] *)
Definition avgSessionDurationSec (r : ga_row) : pyfloat :=
  replace_inf_fillna (fdiv (userEngagementDuration r) (sessions r)).

Inductive duration_choice : Type :=
| AllSessions
| SessionsOver1s.

Definition str_isin (s : string) (l : list string) : bool :=
  existsb (String.eqb s) l.

(** The GA filters (lines 600-608); an empty multiselect applies no filter.
<<
    df_filtered = df_master.copy()
    if selected_countries: ...isin(selected_countries)
    if selected_sources:   ...isin(selected_sources)
    if selected_pages:     ...isin(selected_pages)
    if session_duration_filter == "Sessions > 1 second": ...["avgSessionDurationSec"] > 1
>> *)
Definition ga_filter (selected_countries selected_sources selected_pages : list string)
    (session_duration_filter : duration_choice) (df_master : list ga_row) : list ga_row :=
  let df1 := match selected_countries with
             | [] => df_master
             | _ => filter (fun r => str_isin (country r) selected_countries) df_master
             end in
  let df2 := match selected_sources with
             | [] => df1
             | _ => filter (fun r => str_isin (sessionDefaultChannelGroup r) selected_sources) df1
             end in
  let df3 := match selected_pages with
             | [] => df2
             | _ => filter (fun r => str_isin (pagePath r) selected_pages) df2
             end in
  match session_duration_filter with
  | SessionsOver1s => filter (fun r => fgt1 (avgSessionDurationSec r)) df3
  | AllSessions => df3
  end.

(** ** Concrete parsers used to evaluate the model on sample inputs

    [pd.to_datetime] and [pd.to_numeric] are library parsers; the pipeline
    functions take them as arguments.  The two below accept the ISO form
    [YYYY-MM-DD] and optionally signed decimal integers, enough to run the
    model on concrete rows. *)

Definition digit_val (a : ascii) : option Z :=
  let n := Z.of_nat (nat_of_ascii a) - 48 in
  if (0 <=? n) && (n <=? 9) then Some n else None.

Fixpoint digits_acc (acc : Z) (s : string) : option Z :=
  match s with
  | EmptyString => Some acc
  | String a t =>
      match digit_val a with
      | Some d => digits_acc (10 * acc + d) t
      | None => None
      end
  end.

Definition parse_digits (s : string) : option Z :=
  match s with
  | EmptyString => None
  | _ => digits_acc 0 s
  end.

Definition is_leap (y : Z) : bool :=
  ((y mod 4 =? 0) && negb (y mod 100 =? 0)) || (y mod 400 =? 0).

Definition days_in_month (y m : Z) : Z :=
  if m =? 2 then (if is_leap y then 29 else 28)
  else if (m =? 4) || (m =? 6) || (m =? 9) || (m =? 11) then 30 else 31.

(** Days since 1970-01-01 of a proleptic Gregorian date. *)
Definition days_from_civil (y m d : Z) : Z :=
  let y' := if m <=? 2 then y - 1 else y in
  let era := y' / 400 in
  let yoe := y' - era * 400 in
  let doy := (153 * (if m >? 2 then m - 3 else m + 9) + 2) / 5 + d - 1 in
  let doe := yoe * 365 + yoe / 4 - yoe / 100 + doy in
  era * 146097 + doe - 719468.

Definition parse_iso (s : string) : option Z :=
  if (String.length s =? 10)%nat
     && String.eqb (substring 4 1 s) "-" && String.eqb (substring 7 1 s) "-" then
    match parse_digits (substring 0 4 s), parse_digits (substring 5 2 s),
          parse_digits (substring 8 2 s) with
    | Some y, Some m, Some d =>
        if (1 <=? m) && (m <=? 12) && (1 <=? d) && (d <=? days_in_month y m)
        then Some (days_from_civil y m d) else None
    | _, _, _ => None
    end
  else None.

Definition parse_dec (s : string) : option Q :=
  match s with
  | String "-"%char t => option_map (fun z => inject_Z (- z)) (parse_digits t)
  | _ => option_map inject_Z (parse_digits s)
  end.

(** ** [get_data]: the tender-tracking sheet *)

Record raw_ao : Type := mk_raw_ao {
  rDate : cell;
  rSource : cell;
  rStatus : cell;
  rNombre : cell
}.

(** Strings that [pd.to_datetime] reads as [NaT] rather than failing on. *)
Definition is_nat_string (s : string) : bool :=
  existsb (String.eqb s) [EmptyString; "NaT"; "nat"; "NAT"; "nan"; "NaN"; "NAN"].

(** [pd.to_datetime(x)] (default [errors='raise']) on one cell. *)
Definition to_datetime_raise (parse : string -> option Z) (c : cell) : result (option Z) :=
  match c with
  | None => Ok None
  | Some s =>
      if is_nat_string s then Ok None
      else match parse s with
           | Some d => Ok (Some d)
           | None => Raise ValueError
           end
  end.

(** [pd.to_numeric(x, errors='coerce').fillna(dflt)] on one cell. *)
Definition to_numeric_fillna (parse_num : string -> option Q) (dflt : Q) (c : cell) : Q :=
  match c with
  | Some s => match parse_num s with Some q => q | None => dflt end
  | None => dflt
  end.

(** [df.dropna(subset=['Date', 'Source'])] *)
Definition dropna_date_source (data : list raw_ao) : list raw_ao :=
  filter (fun r => notna (rDate r) && notna (rSource r)) data.

(** A column of [pd.DataFrame(data)] built from records: it exists when some
    record has the key. *)
Definition has_col (f : raw_ao -> cell) (data : list raw_ao) : bool :=
  existsb (fun r => notna (f r)) data.

(** [get_data] after the sheet read (lines 166-169):
<<
    df = df.dropna(subset=['Date', 'Source'])
    df['Date'] = pd.to_datetime(df['Date']).dt.date
    df['Nombre'] = pd.to_numeric(df['Nombre'], errors='coerce').fillna(1)
>>
    [dropna] raises [KeyError] when a column of [subset] is absent (an empty
    sheet has no column at all), [pd.to_datetime] raises [ValueError] on the
    first date it cannot read, and [df['Nombre']] raises [KeyError] when no
    record has a [Nombre] key. *)
Definition get_data (parse : string -> option Z) (parse_num : string -> option Q)
    (data : list raw_ao) : result (list ao_row) :=
  if negb (has_col rDate data && has_col rSource data) then Raise KeyError else
  let df := dropna_date_source data in
  dates <- mapM (fun r => to_datetime_raise parse (rDate r)) df ;;
  if negb (has_col rNombre data) then Raise KeyError else
  Ok (map (fun rd => mk_ao_row (snd rd) (rSource (fst rd)) (rStatus (fst rd))
                               (to_numeric_fillna parse_num 1 (rNombre (fst rd))))
          (combine df dates)).

(** ** Generic data frames: the mail sheet and the ads insights *)

Inductive value : Type :=
| VNaN
| VStr (s : string)
| VNum (q : Q)
| VDate (d : Z).

Definition row := list (string * value).

Record frame : Type := mk_frame {
  cols : list string;
  rows : list row
}.

(** [row[c]]; a column a row lacks (after [pd.concat]) reads as NaN. *)
Fixpoint lookup (c : string) (r : row) : value :=
  match r with
  | [] => VNaN
  | (k, v) :: t => if String.eqb k c then v else lookup c t
  end.

(** [row[c] = v] *)
Fixpoint set_col (c : string) (v : value) (r : row) : row :=
  match r with
  | [] => [(c, v)]
  | (k, w) :: t => if String.eqb k c then (k, v) :: t else (k, w) :: set_col c v t
  end.

Fixpoint add_cols (acc : list string) (ks : list string) : list string :=
  match ks with
  | [] => acc
  | k :: t => add_cols (if str_isin k acc then acc else acc ++ [k]) t
  end.

(** [pd.DataFrame(records)]: the columns are the keys, in first-seen order. *)
Definition df_of_records (recs : list row) : frame :=
  mk_frame (fold_left (fun acc r => add_cols acc (map fst r)) recs []) recs.

(** [df.empty] *)
Definition frame_empty (f : frame) : bool :=
  match cols f, rows f with
  | [], _ | _, [] => true
  | _, _ => false
  end.

(** [df[c]]: selecting a column the frame lacks raises [KeyError]. *)
Definition getcol (c : string) (f : frame) : result (list value) :=
  if str_isin c (cols f) then Ok (map (lookup c) (rows f)) else Raise KeyError.

(** [pd.to_datetime(x, errors='coerce')] on one value: a number counts
    nanoseconds since the epoch. *)
Definition to_datetime_coerce (parse : string -> option Z) (v : value) : option Z :=
  match v with
  | VNaN => None
  | VStr s => if is_nat_string s then None else parse s
  | VNum q => Some (Qfloor (q / inject_Z 86400000000000))
  | VDate d => Some d
  end.

Record worksheet : Type := mk_worksheet {
  title : string;
  records : list row
}.

(** One worksheet of [get_mail_data] (lines 186-201); [None] is [continue]. *)
Definition mail_sheet (parse : string -> option Z) (ws : worksheet) : option frame :=
  let df := df_of_records (records ws) in
  if frame_empty df || negb (str_isin "Date" (cols df)) then None
  else
    let kept := flat_map (fun r =>
                  match to_datetime_coerce parse (lookup "Date" r) with
                  | Some d => [set_col "SheetName" (VStr (title ws)) (set_col "Date" (VDate d) r)]
                  | None => []
                  end) (rows df) in
    match kept with
    | [] => None
    | _ => Some (mk_frame (add_cols (cols df) ["SheetName"]) kept)
    end.

(** [get_mail_data] (lines 183-206) after the spreadsheet is opened. *)
Definition get_mail_data (parse : string -> option Z) (wss : list worksheet) : frame :=
  let all_data := flat_map (fun ws => match mail_sheet parse ws with
                                      | Some f => [f] | None => [] end) wss in
  match all_data with
  | [] => mk_frame ["Date"] []
  | _ => mk_frame (fold_left (fun acc f => add_cols acc (cols f)) all_data [])
                  (flat_map rows all_data)
  end.

(** [str(x).strip() == '']: all characters are whitespace in Python's
    sense ([str.isspace]).  Strings are UTF-8 bytes; the whitespace
    characters are the ASCII ones (tab to carriage return, the separators
    0x1c-0x1f, space) and U+0085, U+00A0, U+1680, U+2000-U+200A, U+2028,
    U+2029, U+202F, U+205F, U+3000. *)
Definition is_ws (a : ascii) : bool :=
  let n := nat_of_ascii a in
  ((9 <=? n) && (n <=? 13))%nat || ((28 <=? n) && (n <=? 32))%nat.

(** The second byte of a two-byte whitespace after 0xC2. *)
Definition is_ws2 (x y : nat) : bool :=
  (x =? 194)%nat && ((y =? 133) || (y =? 160))%nat.

(** The bytes of a three-byte whitespace. *)
Definition is_ws3 (x y z : nat) : bool :=
  ((x =? 225) && (y =? 154) && (z =? 128))%nat
  || ((x =? 226) && (y =? 128) && (((128 <=? z) && (z <=? 138)) || (z =? 168) || (z =? 169) || (z =? 175)))%nat
  || ((x =? 226) && (y =? 129) && (z =? 159))%nat
  || ((x =? 227) && (y =? 128) && (z =? 128))%nat.

Fixpoint all_ws (s : string) : bool :=
  match s with
  | EmptyString => true
  | String a t =>
      if is_ws a then all_ws t else
      match t with
      | EmptyString => false
      | String b t2 =>
          if is_ws2 (nat_of_ascii a) (nat_of_ascii b) then all_ws t2 else
          match t2 with
          | EmptyString => false
          | String c t3 =>
              if is_ws3 (nat_of_ascii a) (nat_of_ascii b) (nat_of_ascii c) then all_ws t3 else false
          end
      end
  end.

Definition str_strip_empty (v : value) : bool :=
  match v with
  | VStr s => all_ws s
  | _ => false    (* "nan", a number or a date renders as a non-blank string *)
  end.

(** "Réponses Reçues" (line 389):
    [len(df[df['Email Reponse '].astype(str).str.strip() != ''])] *)
Definition mail_reply_count (df : frame) : result nat :=
  col <- getcol "Email Reponse " df ;;
  Ok (List.length (filter (fun v => negb (str_strip_empty v)) col)).

(** [get_fb_ads_data] after the insights call (lines 139-145):
<<
    for col in ['spend', 'impressions', 'clicks', 'cpc', 'ctr']:
        if col in df.columns:
            df[col] = pd.to_numeric(df[col], errors='coerce').fillna(0)
>> *)
Definition fb_numeric_cols : list string := ["spend"; "impressions"; "clicks"; "cpc"; "ctr"].

Definition to_numeric_value (parse_num : string -> option Q) (v : value) : option Q :=
  match v with
  | VStr s => parse_num s
  | VNum q => Some q
  | _ => None
  end.

Definition coerce_col (parse_num : string -> option Q) (c : string) (df : frame) : frame :=
  if str_isin c (cols df) then
    mk_frame (cols df)
      (map (fun r => set_col c (VNum (match to_numeric_value parse_num (lookup c r) with
                                      | Some q => q | None => 0 end)) r) (rows df))
  else df.

Definition fb_normalize (parse_num : string -> option Q) (df : frame) : frame :=
  fold_left (fun acc c => coerce_col parse_num c acc) fb_numeric_cols df.


(** ** [DataFrame.groupby] with its default [sort=True, dropna=True]

    Rows whose key is missing are not grouped; the groups come out ordered
    by key.  [one] starts a group's aggregate from its first row and [add]
    folds a further row into it ([size]/[count]: 1 and +1; [sum]: the value
    and +). *)

Section GroupBy.
Context {K R A : Type}.
Variable cmp : K -> K -> comparison.
Variable one : R -> A.
Variable add : A -> R -> A.

Fixpoint gb_insert (k : K) (r : R) (acc : list (K * A)) : list (K * A) :=
  match acc with
  | [] => [(k, one r)]
  | (k', a) :: t =>
      match cmp k k' with
      | Eq => (k', add a r) :: t
      | Lt => (k, one r) :: acc
      | Gt => (k', a) :: gb_insert k r t
      end
  end.

Definition gb_step (key : R -> option K) (acc : list (K * A)) (r : R) : list (K * A) :=
  match key r with
  | Some k => gb_insert k r acc
  | None => acc
  end.

Definition groupby_agg (key : R -> option K) (rows : list R) : list (K * A) :=
  fold_left (gb_step key) rows [].
End GroupBy.

Definition size_one {R : Type} (_ : R) : nat := 1%nat.
Definition size_add {R : Type} (n : nat) (_ : R) : nat := S n.

(** "Activité Timeline" (line 335): [df_filtered.groupby('Date').size()] *)
Definition ao_timeline (df_filtered : list ao_row) : list (Z * nat) :=
  groupby_agg Z.compare size_one size_add Date df_filtered.

(** "Répartition par source" (lines 305-307):
    [df_filtered.groupby("Source")["Nombre"].count()]; [Nombre] is never
    NaN after [get_data]'s [fillna(1)], so the count is the group size. *)
Definition ao_source_counts (df_filtered : list ao_row) : list (string * nat) :=
  groupby_agg String.compare size_one size_add Source df_filtered.

Definition date_key (v : value) : option Z :=
  match v with
  | VDate d => Some d
  | _ => None
  end.

(** "Volume des envois" (line 398): [df_m_filtered.groupby('Date').size()];
    the [Date] column of [get_mail_data] holds dates only. *)
Definition mail_timeline (df_m_filtered : frame) : result (list (Z * nat)) :=
  col <- getcol "Date" df_m_filtered ;;
  Ok (groupby_agg Z.compare size_one size_add date_key col).

(** "Traffic Sources" (line 648):
    [df_filtered.groupby("sessionDefaultChannelGroup")["sessions"].sum()] *)
Definition ga_sessions_by_channel (df_filtered : list ga_row) : list (string * Q) :=
  groupby_agg String.compare sessions (fun a r => a + sessions r)%Q
              (fun r => Some (sessionDefaultChannelGroup r)) df_filtered.

(** ** Ratios *)

Definition count_rows {R : Type} (p : R -> bool) (t : list R) : nat :=
  List.length (filter p t).

(** The guarded percentage the code writes inline,
    [count(num) / count(den) * 100 if count(den) > 0 else 0]. *)
Definition ratio {R : Type} (num den : R -> bool) (t : list R) : Q :=
  let d := count_rows den t in
  if (0 <? d)%nat then (inject_Z (Z.of_nat (count_rows num t)) / inject_Z (Z.of_nat d) * 100)%Q
  else 0%Q.

(** [df_filtered["Status"] == s]; NaN compares false. *)
Definition status_is (s : string) (r : ao_row) : bool :=
  match Status r with Some x => String.eqb x s | None => false end.

(** "Conversion KPIs" (lines 290-296):
<<
    tot = len(df_filtered)
    if tot > 0:
        rate_refus = (len(df_filtered[df_filtered["Status"] == "Refus"]) / tot) * 100
        rate_accep = (len(df_filtered[df_filtered["Status"] == "Accepté"]) / tot) * 100
        count_accep = len(df_filtered[df_filtered["Status"] == "Accepté"])
        rate_opp = (len(df_filtered[df_filtered["Status"] == "Opportunité"]) / count_accep * 100) if count_accep > 0 else 0
    else: rate_refus = rate_accep = rate_opp = 0
>> *)
Definition conversion_kpis (df_filtered : list ao_row) : Q * Q * Q :=
  let tot := List.length df_filtered in
  if (0 <? tot)%nat then
    let n_refus := count_rows (status_is "Refus") df_filtered in
    let n_accep := count_rows (status_is "Accepté") df_filtered in
    let n_opp := count_rows (status_is "Opportunité") df_filtered in
    ((inject_Z (Z.of_nat n_refus) / inject_Z (Z.of_nat tot) * 100)%Q,
     (inject_Z (Z.of_nat n_accep) / inject_Z (Z.of_nat tot) * 100)%Q,
     if (0 <? n_accep)%nat
     then (inject_Z (Z.of_nat n_opp) / inject_Z (Z.of_nat n_accep) * 100)%Q
     else 0%Q)
  else (0%Q, 0%Q, 0%Q).

(** ** [get_mailgun_stats] *)

(** A decoded JSON document. *)
#[local] Set Warnings "-register-all".
Inductive json : Type :=
| JNull
| JBool (b : bool)
| JNum (q : Q)
| JStr (s : string)
| JArr (l : list json)
| JObj (kvs : list (string * json)).

(** [d.get(k, default)]: only a dict has [.get]; a repeated key keeps its
    last value, as [json.loads] does. *)
Definition py_get (d : json) (k : string) (default : json) : result json :=
  match d with
  | JObj kvs => Ok (fold_left (fun acc kv => if String.eqb (fst kv) k then snd kv else acc) kvs default)
  | _ => Raise AttributeError
  end.

(** [x[0]] *)
Definition py_index0 (x : json) : result json :=
  match x with
  | JArr (y :: _) => Ok y
  | JArr [] => Raise IndexError
  | JStr (String a _) => Ok (JStr (String a EmptyString))
  | JStr EmptyString => Raise IndexError
  | JObj _ => Raise KeyError
  | _ => Raise TypeError
  end.

(** A JSON value used as a Python number ([bool] is an [int]). *)
Definition py_num (x : json) : result Q :=
  match x with
  | JNum q => Ok q
  | JBool b => Ok (if b then 1 else 0)%Q
  | _ => Raise TypeError
  end.

(** [x > 0] *)
Definition py_gt0 (x : json) : result bool :=
  q <- py_num x ;; Ok (negb (Qle_bool q 0)).

(** The two totals read from the body (lines 216-217):
<<
    acc = data.get('stats', [{}])[0].get('accepted', {}).get('total', 0)
    ope = data.get('stats', [{}])[0].get('opened', {}).get('total', 0)
>> *)
Definition mailgun_totals (data : json) : result (json * json) :=
  st <- py_get data "stats" (JArr [JObj []]) ;;
  s0 <- py_index0 st ;;
  a <- py_get s0 "accepted" (JObj []) ;;
  acc <- py_get a "total" (JNum 0) ;;
  st' <- py_get data "stats" (JArr [JObj []]) ;;
  s0' <- py_index0 st' ;;
  o <- py_get s0' "opened" (JObj []) ;;
  ope <- py_get o "total" (JNum 0) ;;
  Ok (acc, ope).

(** [rate = (ope / acc * 100) if acc > 0 else 0; return rate, ope] *)
Definition mailgun_body (data : json) : result (json * json) :=
  t <- mailgun_totals data ;;
  let (acc, ope) := t in
  pos <- py_gt0 acc ;;
  if pos then
    o <- py_num ope ;; a <- py_num acc ;; Ok (JNum (o / a * 100)%Q, ope)
  else Ok (JNum 0, ope).

(** What [requests.get] yields: it raised (network error, missing secret),
    or a status code with a body that [res.json()] decodes or fails on. *)
Inductive response : Type :=
| RequestFailed
| Response (status_code : Z) (body : option json).

(** [get_mailgun_stats] (lines 209-221); the bare [except: pass] turns any
    exception of the [try] block into the final [return 0, 0]. *)
Definition get_mailgun_stats (res : response) : json * json :=
  match res with
  | Response 200 (Some data) =>
      match mailgun_body data with
      | Ok p => p
      | Raise _ => (JNum 0, JNum 0)
      end
  | _ => (JNum 0, JNum 0)
  end.

(** ** The page dispatch and the names it binds *)

Inductive page : Type :=
| Home
| AODashboard
| MailTracking
| GoogleAnalytics
| MetaAds
| FinancialImpact.

(** The objects bound to module-level names that the model tracks. *)
Inductive obj : Type :=
| OAds (spend : list Q)       (* the [spend] column of an ads frame *)
| OOther.

Definition env := list (string * obj).

Definition in_locals (x : string) (e : env) : bool := existsb (fun b => String.eqb (fst b) x) e.

Fixpoint env_get (x : string) (e : env) : option obj :=
  match e with
  | [] => None
  | (y, o) :: t => if String.eqb y x then Some o else env_get x t
  end.

(** Names bound before the [if page == ...] chain (imports, functions,
    [page] itself).  Streamlit runs the script afresh in a new module
    namespace on every interaction, so each run starts from here. *)
Definition script_prelude : env :=
  [("st", OOther); ("pd", OOther); ("get_odoo_crm_data", OOther); ("init_fb_api", OOther);
   ("get_fb_ads_data", OOther); ("get_ga_client", OOther); ("get_data", OOther);
   ("get_mail_data", OOther); ("get_mailgun_stats", OOther); ("run_ga_report", OOther);
   ("page", OOther)].

(** The sidebar and remote inputs of one run. *)
Record run_inputs : Type := mk_run_inputs {
  fb_range : list Z;            (* the Meta Ads date_input *)
  fb_insights_spend : list Q;   (* spend of the insights returned *)
  leads_empty : bool;           (* [df_leads.empty] *)
  meta_revenue_in : Q           (* Meta Ads revenue from the invoices *)
}.

Record roi_view : Type := mk_roi_view {
  meta_spend : Q;
  meta_revenue : Q;
  roi : Q
}.

Definition sumQ (l : list Q) : Q := fold_right Qplus 0%Q l.

(** The Meta ROI block of the Financial Impact page (lines 519-529):
<<
    meta_spend = df_fb['spend'].sum() if 'df_fb' in locals() else 0
    ...
    roi = ((meta_revenue - meta_spend) / meta_spend * 100) if meta_spend > 0 else 0
>> *)
Definition meta_roi_block (e : env) (meta_revenue_v : Q) : roi_view :=
  let spend := if in_locals "df_fb" e then
                 match env_get "df_fb" e with Some (OAds sp) => sumQ sp | _ => 0%Q end
               else 0%Q in
  mk_roi_view spend meta_revenue_v
    (if negb (Qle_bool spend 0) then ((meta_revenue_v - spend) / spend * 100)%Q else 0%Q).

(** One run of the script: the names bound at its end and, on the
    Financial Impact page, the ROI view (none when the page stops early
    because there are no CRM leads).  Only the bindings are modelled for the
    other pages. *)
Definition run_script (p : page) (inp : run_inputs) : env * option roi_view :=
  let e := script_prelude in
  match p with
  | Home => (e, None)
  | AODashboard => (("df", OOther) :: ("df_filtered", OOther) :: e, None)
  | MailTracking => (("df_m", OOther) :: ("df_m_filtered", OOther) :: e, None)
  | GoogleAnalytics => (("site", OOther) :: ("ga_range", OOther) :: e, None)
  | MetaAds =>
      let e1 := ("today", OOther) :: ("fb_range", OOther) :: e in
      match fb_range inp with
      | [_; _] => (("df_fb", OAds (fb_insights_spend inp)) :: e1, None)
      | _ => (e1, None)
      end
  | FinancialImpact =>
      let e1 := ("df_leads", OOther) :: ("df_revenue", OOther) :: e in
      if leads_empty inp then (e1, None)
      else
        let e2 := ("total_pipeline", OOther) :: ("total_revenue", OOther) :: ("funnel", OOther)
                  :: ("pivot_leads", OOther) :: ("pivot_pipeline", OOther) :: ("df_join", OOther)
                  :: ("revenue_by_source", OOther) :: e1 in
        let v := meta_roi_block e2 (meta_revenue_in inp) in
        (("meta_spend", OOther) :: ("meta_revenue", OOther) :: ("roi", OOther) :: e2, Some v)
  end.

(** ** The ads account id (lines 115-117)
<<
    if not account_id.startswith('act_'):
        account_id = f"act_{account_id}"
>> *)
Definition fb_account_id (account_id : string) : string :=
  if String.prefix "act_" account_id then account_id else "act_" ++ account_id.

(** ** The mail page: date filter and the Mailgun duration *)

(** [str(n)] for [n >= 0], digits prepended to [acc] from the last one. *)
Fixpoint str_of_nonneg_aux (fuel : nat) (n : Z) (acc : string) : string :=
  match fuel with
  | O => acc
  | S f =>
      let acc' := String (ascii_of_nat (48 + Z.to_nat (n mod 10))%nat) acc in
      if n <? 10 then acc' else str_of_nonneg_aux f (n / 10) acc'
  end.

(** [str(n)] on an [int] *)
Definition str_of_Z (n : Z) : string :=
  if n <? 0 then String "-" (str_of_nonneg_aux (S (Z.to_nat (- n))) (- n) EmptyString)
  else str_of_nonneg_aux (S (Z.to_nat n)) n EmptyString.

(** The duration sent to [get_mailgun_stats] (lines 357-366):
<<
    if isinstance(mail_date_range, tuple) and len(mail_date_range) == 2:
        start_m, end_m = mail_date_range
        days_diff = (end_m - start_m).days
        duration_str = f"{days_diff if days_diff > 0 else 1}d"
    else: ... get_mailgun_stats("30d")
>> *)
Definition mail_stats_duration (mail_date_range : list Z) : string :=
  match mail_date_range with
  | [start_m; end_m] =>
      let days_diff := end_m - start_m in
      str_of_Z (if 0 <? days_diff then days_diff else 1) ++ "d"
  | _ => "30d"
  end.

(** [col >= x] (when [ge]) or [col <= x] on one value of an object column
    compared with a [date]: NaN compares false, a string or a number
    against a [date] raises [TypeError]. *)
Definition date_cmp_value (ge : bool) (v : value) (x : Z) : result bool :=
  match v with
  | VDate d => Ok (if ge then Z.leb x d else Z.leb d x)
  | VNaN => Ok false
  | _ => Raise TypeError
  end.

Fixpoint filterM {A : Type} (p : A -> result bool) (l : list A) : result (list A) :=
  match l with
  | [] => Ok []
  | x :: t => b <- p x ;; ys <- filterM p t ;; Ok (if b then x :: ys else ys)
  end.

(** The mail date filter (lines 357-359, 364-365):
<<
        df_m_filtered = df_m[(df_m['Date'] >= start_m) & (df_m['Date'] <= end_m)]
    else:
        df_m_filtered = df_m
>> *)
Definition mail_filter (mail_date_range : list Z) (df_m : frame) : result frame :=
  match mail_date_range with
  | [start_m; end_m] =>
      if str_isin "Date" (cols df_m) then
        rs <- filterM (fun r => let v := lookup "Date" r in
                                a <- date_cmp_value true v start_m ;;
                                b <- date_cmp_value false v end_m ;;
                                Ok (a && b)) (rows df_m) ;;
        Ok (mk_frame (cols df_m) rs)
      else Raise KeyError
  | _ => Ok df_m
  end.

(** ** The Google Analytics snapshot metrics (lines 614-627) *)

(** [Series.sum()] on a numeric column *)
Definition colsum {R : Type} (f : R -> Q) (t : list R) : Q := fold_right (fun r a => f r + a)%Q 0%Q t.

(**
<<
    t_u = df_filtered["activeUsers"].sum()
    t_s = df_filtered["sessions"].sum()
    t_pv = df_filtered["screenPageViews"].sum()
    ret_rate = ((t_u - df_filtered["newUsers"].sum()) / t_u * 100) if t_u > 0 else 0
>> *)
Definition ga_snapshot (df_filtered : list ga_row) : Q * Q * Q * Q :=
  let t_u := colsum activeUsers df_filtered in
  let t_s := colsum sessions df_filtered in
  let t_pv := colsum screenPageViews df_filtered in
  let ret_rate := if negb (Qle_bool t_u 0)
                  then ((t_u - colsum newUsers df_filtered) / t_u * 100)%Q
                  else 0%Q in
  (t_u, t_s, t_pv, ret_rate).

(** [Series.mean()]: NaN on an empty series. *)
Definition series_mean {R : Type} (f : R -> Q) (t : list R) : pyfloat :=
  match t with
  | [] => NaN
  | _ => Fin (colsum f t / inject_Z (Z.of_nat (List.length t)))
  end.

(** [x * 100] on a float *)
Definition fmul100 (x : pyfloat) : pyfloat :=
  match x with
  | Fin q => Fin (q * 100)
  | _ => x
  end.

(** [avg_engagement_rate = df_filtered["engagementRate"].mean() * 100] *)
Definition avg_engagement_rate (df_filtered : list ga_row) : pyfloat :=
  fmul100 (series_mean engagementRate df_filtered).

(** ** The rows of [run_ga_report] (lines 233-237)
<<
    for row in response.rows:
        res = {dimensions[i]: val.value for i, val in enumerate(row.dimension_values)}
        res.update({metrics[i]: val.value for i, val in enumerate(row.metric_values)})
        output.append(res)
    return pd.DataFrame(output)
>> *)

(** [l[i]] *)
Fixpoint py_nth {A : Type} (l : list A) (i : nat) : result A :=
  match l, i with
  | [], _ => Raise IndexError
  | x :: _, O => Ok x
  | _ :: t, S j => py_nth t j
  end.

(** [{names[i]: v for i, v in enumerate(vals)}], built from index [i] on
    into [acc]. *)
Fixpoint dict_comp (names vals : list string) (i : nat) (acc : row) : result row :=
  match vals with
  | [] => Ok acc
  | v :: t => k <- py_nth names i ;; dict_comp names t (S i) (set_col k (VStr v) acc)
  end.

(** [d.update(other)] *)
Definition dict_update (d other : row) : row :=
  fold_left (fun acc kv => set_col (fst kv) (snd kv) acc) other d.

Definition ga_report_row (dimensions metrics : list string)
    (dimension_values metric_values : list string) : result row :=
  res <- dict_comp dimensions dimension_values 0 [] ;;
  upd <- dict_comp metrics metric_values 0 [] ;;
  Ok (dict_update res upd).

Definition ga_report (dimensions metrics : list string)
    (response_rows : list (list string * list string)) : result frame :=
  output <- mapM (fun rw => ga_report_row dimensions metrics (fst rw) (snd rw)) response_rows ;;
  Ok (df_of_records output).

(** ** The Financial Impact page (lines 457-521) *)

(** A many2one field as [search_read] returns it: [[id, display_name]], or
    [False] when it is unset. *)
Inductive m2o : Type :=
| M2O (id : Z) (display_name : string)
| M2OFalse.

(** [lambda x: x[1] if isinstance(x, list) else "Unknown"] *)
Definition m2o_label (x : m2o) : string :=
  match x with
  | M2O _ n => n
  | M2OFalse => "Unknown"
  end.

Record odoo_lead : Type := mk_odoo_lead {
  lead_id : Z;
  lead_name : string;
  source_id : m2o;
  stage_id : m2o;
  expected_revenue : value
}.

Record odoo_invoice : Type := mk_odoo_invoice {
  amount_total : value;
  invoice_origin : option string    (* [False] when unset *)
}.

(** [pd.to_numeric(x, errors='coerce').fillna(0)] on one value *)
Definition num_fillna0 (parse_num : string -> option Q) (v : value) : Q :=
  match to_numeric_value parse_num v with Some q => q | None => 0%Q end.

(** A lead after the cleaning of lines 457-459. *)
Record lead : Type := mk_lead {
  l_name : string;
  l_source : string;
  l_stage : string;
  l_expected_revenue : Q
}.

Definition clean_lead (parse_num : string -> option Q) (x : odoo_lead) : lead :=
  mk_lead (lead_name x) (m2o_label (source_id x)) (m2o_label (stage_id x))
          (num_fillna0 parse_num (expected_revenue x)).

(** [(source, stage)] ordered as pandas sorts a two-level key. *)
Definition pair_compare (x y : string * string) : comparison :=
  match String.compare (fst x) (fst y) with
  | Eq => String.compare (snd x) (snd y)
  | c => c
  end.

(** The funnel (lines 480-488):
<<
    df_leads.groupby(['source','stage'])
            .agg(leads=('id','count'), pipeline=('expected_revenue','sum'))
>>
    Odoo sends an [id] with every lead, so [leads] is the group size.  The
    [pipeline] column is an exact rational sum, where pandas adds float64
    values and may round differently. *)
Definition funnel (df_leads : list lead) : list ((string * string) * (nat * Q)) :=
  groupby_agg pair_compare (fun l => (1%nat, l_expected_revenue l))
              (fun a l => (S (fst a), (snd a + l_expected_revenue l)%Q))
              (fun l => Some (l_source l, l_stage l)) df_leads.

(** One row of the join: the invoice amount and the source of its lead,
    NaN when no lead matches. *)
Definition join_row := (Q * option string)%type.

(** [df_revenue.merge(df_leads[['name','source']], left_on='invoice_origin',
    right_on='name', how='left')]: each invoice, in order, once per lead of
    that name, or once with a NaN source when there is none. *)
Definition origin_matches (invoice_origin : option string) (l : lead) : bool :=
  match invoice_origin with
  | Some o => String.eqb o (l_name l)
  | None => false
  end.

Definition df_join (amounts : list (Q * option string)) (df_leads : list lead) : list join_row :=
  flat_map (fun inv =>
              let m := filter (origin_matches (snd inv)) df_leads in
              match m with
              | [] => [(fst inv, None)]
              | _ => map (fun l => (fst inv, Some (l_source l))) m
              end) amounts.

(** [revenue_by_source = df_join.groupby('source')['amount_total'].sum()] *)
Definition revenue_by_source (j : list join_row) : list (string * Q) :=
  groupby_agg String.compare (fun r => fst r) (fun a r => (a + fst r)%Q) snd j.

(** [meta_revenue = revenue_by_source[revenue_by_source['source']=="Meta Ads"]['amount_total'].sum()] *)
Definition meta_revenue_of (rbs : list (string * Q)) : Q :=
  colsum snd (filter (fun e => String.eqb (fst e) "Meta Ads") rbs).

(** The invoices after [df_revenue['amount_total'] = pd.to_numeric(..., errors='coerce').fillna(0)]
    (line 461).  Odoo sends [amount_total] with every invoice, but the frame
    of no invoice has no column at all, and selecting it raises [KeyError]. *)
Definition clean_invoices (parse_num : string -> option Q) (df_revenue : list odoo_invoice)
    : result (list (Q * option string)) :=
  match df_revenue with
  | [] => Raise KeyError
  | _ => Ok (map (fun i => (num_fillna0 parse_num (amount_total i), invoice_origin i)) df_revenue)
  end.


(** * Properties *)

(** ** Cell and list helpers *)

Lemma cell_eqb_true (a b : cell) : cell_eqb a b = true <-> a = b.
Proof.
  destruct a as [x|], b as [y|]; simpl; split; intro H; try discriminate; auto.
  - apply String.eqb_eq in H; now subst.
  - inversion H; subst; apply String.eqb_refl.
Qed.

Lemma isin_In (c : cell) (values : list cell) : isin c values = true <-> In c values.
Proof.
  unfold isin; rewrite existsb_exists; split.
  - intros [x [Hin Heq]]; apply cell_eqb_true in Heq; now subst.
  - intros Hin; exists c; split; [exact Hin | now apply cell_eqb_true].
Qed.

Lemma str_isin_In (s : string) (l : list string) : str_isin s l = true <-> In s l.
Proof.
  unfold str_isin; rewrite existsb_exists; split.
  - intros [x [Hin Heq]]; apply String.eqb_eq in Heq; now subst.
  - intros Hin; exists s; split; [exact Hin | apply String.eqb_refl].
Qed.

Lemma date_range_spec (d : option Z) (s e : Z) :
  date_ge d s && date_le d e = true <-> exists x, d = Some x /\ s <= x <= e.
Proof.
  destruct d as [x|]; simpl; split.
  - intros H; apply andb_true_iff in H as [H1 H2];
      apply Z.leb_le in H1; apply Z.leb_le in H2; eauto.
  - intros [y [Hy Hr]]; inversion Hy; subst;
      apply andb_true_iff; split; apply Z.leb_le; lia.
  - discriminate.
  - intros [y [Hy _]]; discriminate.
Qed.

Lemma optional_isin_spec {A : Type} (p : A -> string) (sel : list string) (df : list A) (r : A) :
  In r (match sel with [] => df | _ => filter (fun x => str_isin (p x) sel) df end) <->
  In r df /\ (sel = [] \/ In (p r) sel).
Proof.
  destruct sel as [|s sel].
  - tauto.
  - rewrite filter_In, str_isin_In; split.
    + intros [H1 H2]; split; [exact H1 | right; exact H2].
    + intros [H1 [H2|H2]]; [discriminate | tauto].
Qed.

(** ** C1: the sidebar filters *)

(** C1.  With a start and an end date, the AO filter keeps exactly the rows
    whose date lies in [[start, end]] (both inclusive) and whose [Source] and
    [Status] are members of the selected sets (AND across columns, OR
    within one set).  The GA filters keep exactly the rows whose country,
    channel and page lie in each non-empty selection (an empty selection is
    no constraint), and, under "Sessions > 1 second", whose average session
    duration exceeds one second. *)
Theorem filter_keeps_exactly_selected :
  (forall (start_date end_date : Z) (sources status_list : list cell)
          (df : list ao_row) (r : ao_row),
     In r (ao_filter [start_date; end_date] sources status_list df) <->
     In r df
     /\ (exists d, Date r = Some d /\ start_date <= d <= end_date)
     /\ In (Source r) sources
     /\ In (Status r) status_list)
  /\
  (forall (cs ss ps : list string) (mode : duration_choice)
          (df : list ga_row) (r : ga_row),
     In r (ga_filter cs ss ps mode df) <->
     In r df
     /\ (cs = [] \/ In (country r) cs)
     /\ (ss = [] \/ In (sessionDefaultChannelGroup r) ss)
     /\ (ps = [] \/ In (pagePath r) ps)
     /\ (mode = SessionsOver1s -> fgt1 (avgSessionDurationSec r) = true)).
Proof.
  split.
  - intros s e srcs sts df r; unfold ao_filter.
    rewrite filter_In, !andb_true_iff, <- date_range_spec, !isin_In.
    rewrite <- andb_true_iff.
    tauto.
  - intros cs ss ps mode df r; unfold ga_filter.
    destruct mode.
    + rewrite !optional_isin_spec; split.
      * intros [[[H1 H2] H3] H4]; repeat split; auto; discriminate.
      * intros [H1 [H2 [H3 [H4 _]]]]; tauto.
    + rewrite filter_In, !optional_isin_spec; split.
      * intros [[[[H1 H2] H3] H4] H5]; repeat split; auto.
      * intros [H1 [H2 [H3 [H4 H5]]]]; repeat split; auto.
Qed.

(** ** Error-monad and row helpers *)

Lemma mapM_Forall2 {A B : Type} (f : A -> result B) (l : list A) (out : list B) :
  mapM f l = Ok out -> Forall2 (fun x y => f x = Ok y) l out.
Proof.
  revert out; induction l as [|x t IH]; simpl; intros out H.
  - inversion H; constructor.
  - destruct (f x) as [y|e] eqn:Hx; simpl in H; [|discriminate].
    destruct (mapM f t) as [ys|e] eqn:Ht; simpl in H; [|discriminate].
    inversion H; subst; constructor; auto.
Qed.

Lemma mapM_raise {A B : Type} (f : A -> result B) (l : list A) (x : A) (e : exn) :
  In x l -> f x = Raise e ->
  (forall y e', In y l -> f y = Raise e' -> e' = e) ->
  mapM f l = Raise e.
Proof.
  induction l as [|y t IH]; simpl; intros Hin Hx Hall; [contradiction|].
  destruct (f y) as [b|e'] eqn:Hy; simpl.
  - destruct Hin as [<-|Hin]; [congruence|].
    rewrite (IH Hin Hx (fun z e'' Hz => Hall z e'' (or_intror Hz))); reflexivity.
  - f_equal; exact (Hall y e' (or_introl eq_refl) Hy).
Qed.

Lemma mapM_raise_in {A B : Type} (f : A -> result B) (l : list A) (e : exn) :
  mapM f l = Raise e -> exists x, In x l /\ f x = Raise e.
Proof.
  induction l as [|y t IH]; simpl; intros H; [discriminate|].
  destruct (f y) as [b|e'] eqn:Hy; simpl in H.
  - destruct (mapM f t) as [bs|e''] eqn:Ht; simpl in H; [discriminate|].
    injection H as ->; destruct (IH eq_refl) as [x [Hx Hf]]; exists x; auto.
  - injection H as ->; exists y; auto.
Qed.

Lemma to_datetime_raise_exn (parse : string -> option Z) (c : cell) (e : exn) :
  to_datetime_raise parse c = Raise e -> e = ValueError.
Proof.
  unfold to_datetime_raise; destruct c as [s|]; [|discriminate].
  destruct (is_nat_string s); [discriminate|].
  destruct (parse s); [discriminate|]; now injection 1.
Qed.

Lemma Forall2_combine_map {A B C : Type} (P : A -> B -> Prop) (Q0 : A -> C -> Prop)
    (h : A * B -> C) (l1 : list A) (l2 : list B) :
  Forall2 P l1 l2 -> (forall a b, P a b -> Q0 a (h (a, b))) ->
  Forall2 Q0 l1 (map h (combine l1 l2)).
Proof.
  intros HF Hh; induction HF as [|a b t1 t2 Hab _ IH]; cbn; constructor; auto.
Qed.

(** What a successful [get_data] returns: the rows kept by [dropna], in
    order, each with its parsed date and its [Nombre] filled with 1. *)
Lemma get_data_Ok (parse : string -> option Z) (parse_num : string -> option Q)
    (data : list raw_ao) (out : list ao_row) :
  get_data parse parse_num data = Ok out ->
  has_col rDate data = true /\ has_col rSource data = true /\ has_col rNombre data = true /\
  Forall2 (fun r o => to_datetime_raise parse (rDate r) = Ok (Date o) /\
                      Source o = rSource r /\ Status o = rStatus r /\
                      Nombre o = to_numeric_fillna parse_num 1 (rNombre r))
          (dropna_date_source data) out.
Proof.
  unfold get_data; intros H.
  destruct (has_col rDate data) eqn:Hd; [|discriminate].
  destruct (has_col rSource data) eqn:Hs; [|discriminate].
  cbv zeta in H; cbn [andb negb] in H.
  destruct (mapM _ (dropna_date_source data)) as [dates|e] eqn:Hm; cbn [bind] in H; [|discriminate].
  destruct (has_col rNombre data) eqn:Hn; cbn [negb] in H; [|discriminate].
  injection H as <-; repeat split.
  apply Forall2_combine_map with (P := fun r d => to_datetime_raise parse (rDate r) = Ok d).
  - exact (mapM_Forall2 _ _ _ Hm).
  - intros a b Hab; cbn; repeat split; exact Hab.
Qed.

Lemma lookup_set_col_same (c : string) (v : value) (r : row) :
  lookup c (set_col c v r) = v.
Proof.
  induction r as [|[k w] t IH]; simpl.
  - now rewrite String.eqb_refl.
  - destruct (String.eqb k c) eqn:E; simpl; rewrite ?E; auto.
Qed.

Lemma lookup_set_col_other (c c' : string) (v : value) (r : row) :
  c' <> c -> lookup c (set_col c' v r) = lookup c r.
Proof.
  intros Hne; induction r as [|[k w] t IH]; simpl.
  - destruct (String.eqb c' c) eqn:E; auto.
    apply String.eqb_eq in E; contradiction.
  - destruct (String.eqb k c') eqn:E; simpl.
    + apply String.eqb_eq in E; subst k.
      destruct (String.eqb c' c) eqn:E2; auto.
      apply String.eqb_eq in E2; contradiction.
    + destruct (String.eqb k c); auto.
Qed.

(** The first sample table of the spec, filtered to 2024-01-01. *)
Example ao_filter_one_day :
  ao_filter [19723; 19723] [Some "S"] [Some "Accepted"; Some "Refused"]
    [mk_ao_row (Some 19723) (Some "S") (Some "Accepted") 1;
     mk_ao_row (Some 19723) (Some "S") (Some "Refused") 2;
     mk_ao_row (Some 19724) (Some "S") (Some "Accepted") 1]
  = [mk_ao_row (Some 19723) (Some "S") (Some "Accepted") 1;
     mk_ao_row (Some 19723) (Some "S") (Some "Refused") 2].
Proof. vm_compute; reflexivity. Qed.

(** ** C2: unparsable dates in [get_data] *)

(** C2.  In [get_data] an unparsable date is not dropped: a single row that
    survives [dropna] and whose date [pd.to_datetime] cannot read makes the
    whole call raise [ValueError] (the mail path [get_mail_data] instead
    coerces and drops such rows). *)
Theorem get_data_raises_on_unparsable_date :
  forall (parse : string -> option Z) (parse_num : string -> option Q)
         (data : list raw_ao) (r : raw_ao) (s : string),
    In r data -> rDate r = Some s -> notna (rSource r) = true ->
    is_nat_string s = false -> parse s = None ->
    get_data parse parse_num data = Raise ValueError.
Proof.
  intros parse pn data r s Hin Hd Hs Hn Hp; unfold get_data.
  assert (Hcd : has_col rDate data = true)
    by (apply existsb_exists; exists r; split; [exact Hin | now rewrite Hd]).
  assert (Hcs : has_col rSource data = true)
    by (apply existsb_exists; exists r; split; [exact Hin | exact Hs]).
  rewrite Hcd, Hcs; cbv zeta; cbn [andb negb].
  rewrite (mapM_raise _ _ r ValueError); [reflexivity| | |].
  - unfold dropna_date_source; apply filter_In; split; [exact Hin|].
    now rewrite Hd, Hs.
  - unfold to_datetime_raise; rewrite Hd, Hn, Hp; reflexivity.
  - intros y e' _ Hy; exact (to_datetime_raise_exn _ _ _ Hy).
Qed.

(** The failing input: one sheet row with the date "abc". *)
Definition c2_raw : raw_ao := mk_raw_ao (Some "abc") (Some "Site") (Some "Refus") (Some "1").

Lemma get_data_raises_on_unparsable_date_witness :
  get_data parse_iso parse_dec [c2_raw] = Raise ValueError.
Proof.
  apply (get_data_raises_on_unparsable_date parse_iso parse_dec [c2_raw] c2_raw "abc");
    [left; reflexivity | reflexivity | reflexivity | vm_compute; reflexivity
    | vm_compute; reflexivity].
Defined.

(** The mail path drops the same date. *)
Example get_mail_data_drops_unparsable_date :
  rows (get_mail_data parse_iso
          [mk_worksheet "S1" [[("Date", VStr "abc")]; [("Date", VStr "2024-01-01")]]])
  = [[("Date", VDate 19723); ("SheetName", VStr "S1")]].
Proof. vm_compute; reflexivity. Qed.

(** ** C3: the numeric fallbacks *)

Definition num_or0 (parse_num : string -> option Q) (v : value) : Q :=
  match to_numeric_value parse_num v with Some q => q | None => 0 end.

Definition fb_step (parse_num : string -> option Q) (cs : list string) (r : row) (c : string) : row :=
  if str_isin c cs then set_col c (VNum (num_or0 parse_num (lookup c r))) r else r.

Lemma coerce_col_cols (pn : string -> option Q) (c : string) (df : frame) :
  cols (coerce_col pn c df) = cols df.
Proof. unfold coerce_col; destruct (str_isin c (cols df)); reflexivity. Qed.

Lemma coerce_col_rows (pn : string -> option Q) (c : string) (df : frame) :
  rows (coerce_col pn c df) = map (fun r => fb_step pn (cols df) r c) (rows df).
Proof.
  unfold coerce_col, fb_step; destruct (str_isin c (cols df)); simpl.
  - reflexivity.
  - symmetry; apply map_id.
Qed.

Lemma fold_coerce_rows (pn : string -> option Q) (cl : list string) (df : frame) :
  cols (fold_left (fun acc c => coerce_col pn c acc) cl df) = cols df /\
  rows (fold_left (fun acc c => coerce_col pn c acc) cl df)
  = map (fun r => fold_left (fb_step pn (cols df)) cl r) (rows df).
Proof.
  revert df; induction cl as [|c cl IH]; intros df; simpl.
  - split; [reflexivity | symmetry; apply map_id].
  - destruct (IH (coerce_col pn c df)) as [H1 H2].
    rewrite coerce_col_cols in H1, H2; split; [exact H1|].
    rewrite H2, coerce_col_rows, map_map; reflexivity.
Qed.

Lemma fb_step_other (pn : string -> option Q) (cs : list string) (c : string) (cl : list string) (r : row) :
  ~ In c cl -> lookup c (fold_left (fb_step pn cs) cl r) = lookup c r.
Proof.
  revert r; induction cl as [|h cl IH]; simpl; intros r Hn; [reflexivity|].
  rewrite IH by tauto; unfold fb_step.
  destruct (str_isin h cs); [|reflexivity].
  apply lookup_set_col_other; intros ->; tauto.
Qed.

Lemma fb_step_fallback (pn : string -> option Q) (cs : list string) (c : string) (cl : list string) (r : row) :
  NoDup cl -> In c cl -> In c cs -> to_numeric_value pn (lookup c r) = None ->
  lookup c (fold_left (fb_step pn cs) cl r) = VNum 0.
Proof.
  revert r; induction cl as [|h cl IH]; simpl; intros r Hnd Hin Hcs Hv; [contradiction|].
  inversion Hnd as [|h' cl' Hnh Hnd']; subst.
  destruct Hin as [<-|Hin].
  - rewrite fb_step_other by exact Hnh; unfold fb_step.
    apply str_isin_In in Hcs; rewrite Hcs, lookup_set_col_same.
    unfold num_or0; now rewrite Hv.
  - apply IH; auto; unfold fb_step.
    destruct (str_isin h cs); [|exact Hv].
    rewrite lookup_set_col_other; [exact Hv|].
    intros ->; contradiction.
Qed.

(** C3 (as amended).  In [get_data], when the call returns, every row kept
    by [dropna] whose [Nombre] is missing or does not parse gets
    [Nombre = 1] and is kept, in its place; when no record has a [Nombre]
    value at all (no [Nombre] column), the call raises: [KeyError] at line
    168, or [ValueError] if the date conversion of line 167 failed first.
    In [get_fb_ads_data] a missing or unparsable value of one of the
    present columns spend/impressions/clicks/cpc/ctr becomes [0], and no
    row is removed. *)
Theorem numeric_fallbacks_per_path :
  (forall (parse : string -> option Z) (parse_num : string -> option Q)
          (data : list raw_ao) (out : list ao_row),
     get_data parse parse_num data = Ok out ->
     Forall2 (fun r o => Source o = rSource r /\ Status o = rStatus r /\
               ((rNombre r = None \/ exists s, rNombre r = Some s /\ parse_num s = None) ->
                Nombre o = 1%Q))
             (dropna_date_source data) out)
  /\
  (forall (parse : string -> option Z) (parse_num : string -> option Q) (data : list raw_ao),
     (forall r, In r data -> rNombre r = None) ->
     get_data parse parse_num data = Raise KeyError \/
     get_data parse parse_num data = Raise ValueError)
  /\
  (forall (parse_num : string -> option Q) (df : frame),
     cols (fb_normalize parse_num df) = cols df /\
     List.length (rows (fb_normalize parse_num df)) = List.length (rows df) /\
     Forall2 (fun r r' => forall c, In c fb_numeric_cols -> In c (cols df) ->
                to_numeric_value parse_num (lookup c r) = None ->
                lookup c r' = VNum 0)
             (rows df) (rows (fb_normalize parse_num df))).
Proof.
  split; [|split].
  - intros parse pn data out H.
    destruct (get_data_Ok parse pn data out H) as [_ [_ [_ HF]]].
    eapply Forall2_impl; [|exact HF]; cbn beta.
    intros r o [_ [Hs [Ht Hn]]]; repeat split; auto.
    rewrite Hn; unfold to_numeric_fillna.
    intros [Hr | [s [Hr Hp]]]; rewrite Hr; [reflexivity | now rewrite Hp].
  - intros parse pn data Hall; unfold get_data.
    assert (Hn : has_col rNombre data = false).
    { destruct (has_col rNombre data) eqn:E; [|reflexivity].
      apply existsb_exists in E as [r [Hr Hr']].
      rewrite (Hall r Hr) in Hr'; discriminate. }
    destruct (has_col rDate data && has_col rSource data); cbn [negb]; [|left; reflexivity].
    cbv zeta.
    destruct (mapM _ (dropna_date_source data)) as [dates|e] eqn:Hm; cbn [bind].
    + rewrite Hn; left; reflexivity.
    + right; apply mapM_raise_in in Hm as [x [_ Hx]].
      now rewrite (to_datetime_raise_exn _ _ _ Hx).
  - intros pn df; unfold fb_normalize.
    destruct (fold_coerce_rows pn fb_numeric_cols df) as [Hc Hr].
    rewrite Hc, Hr, length_map; repeat split; clear Hc Hr.
    induction (rows df) as [|r t IH]; [constructor|]; cbn [map]; constructor; [|exact IH].
    intros c Hin Hcs Hv; apply fb_step_fallback; auto.
    unfold fb_numeric_cols; repeat constructor; simpl; intuition discriminate.
Qed.

Definition c3_raw : raw_ao := mk_raw_ao (Some "2024-01-02") (Some "Site") (Some "Accepté") (Some "n/a").

Definition c3_raw_no_nombre : raw_ao := mk_raw_ao (Some "2024-01-02") (Some "Site") (Some "Accepté") None.

Lemma numeric_fallbacks_per_path_witness :
  get_data parse_iso parse_dec [c3_raw] = Ok [mk_ao_row (Some 19724) (Some "Site") (Some "Accepté") 1] /\
  Forall2 (fun r o => Source o = rSource r /\ Status o = rStatus r /\
             ((rNombre r = None \/ exists s, rNombre r = Some s /\ parse_dec s = None) ->
              Nombre o = 1%Q))
    (dropna_date_source [c3_raw]) [mk_ao_row (Some 19724) (Some "Site") (Some "Accepté") 1] /\
  get_data parse_iso parse_dec [c3_raw_no_nombre] = Raise KeyError /\
  (get_data parse_iso parse_dec [c3_raw_no_nombre] = Raise KeyError \/
   get_data parse_iso parse_dec [c3_raw_no_nombre] = Raise ValueError).
Proof.
  assert (H : get_data parse_iso parse_dec [c3_raw]
              = Ok [mk_ao_row (Some 19724) (Some "Site") (Some "Accepté") 1])
    by (vm_compute; reflexivity).
  split; [exact H|]; split.
  - exact (proj1 numeric_fallbacks_per_path parse_iso parse_dec _ _ H).
  - split; [vm_compute; reflexivity|].
    apply (proj1 (proj2 numeric_fallbacks_per_path) parse_iso parse_dec).
    intros r [<-|[]]; reflexivity.
Defined.

(** The ads table: an unparsable spend. *)
Definition c3_ads : frame := df_of_records [[("ad_name", VStr "Ad 1"); ("spend", VStr "n/a")]].

(** C3 counterexample: in [get_fb_ads_data] an unparsable spend becomes 0,
    not 1. *)
Lemma fb_unparsable_spend_is_zero :
  lookup "spend" (hd [] (rows (fb_normalize parse_dec c3_ads))) = VNum 0 /\
  lookup "spend" (hd [] (rows (fb_normalize parse_dec c3_ads))) <> VNum 1.
Proof.
  vm_compute; split; [reflexivity | discriminate].
Qed.

(** ** C4: columns absent from a table *)

Lemma getcol_absent (c : string) (f : frame) :
  ~ In c (cols f) -> getcol c f = Raise KeyError.
Proof.
  intros Hn; unfold getcol.
  destruct (str_isin c (cols f)) eqn:E; [apply str_isin_In in E; contradiction | reflexivity].
Qed.

Lemma mail_sheet_no_date (parse : string -> option Z) (ws : worksheet) :
  ~ In "Date" (cols (df_of_records (records ws))) -> mail_sheet parse ws = None.
Proof.
  intros Hn; unfold mail_sheet.
  destruct (str_isin "Date" (cols (df_of_records (records ws)))) eqn:E.
  - apply str_isin_In in E; contradiction.
  - rewrite orb_true_r; reflexivity.
Qed.

Lemma coerce_col_absent (pn : string -> option Q) (c : string) (df : frame) :
  ~ In c (cols df) -> coerce_col pn c df = df.
Proof.
  intros Hn; unfold coerce_col.
  destruct (str_isin c (cols df)) eqn:E; [apply str_isin_In in E; contradiction | reflexivity].
Qed.

Lemma fold_coerce_absent (pn : string -> option Q) (cl : list string) (df : frame) :
  (forall c, In c cl -> ~ In c (cols df)) ->
  fold_left (fun acc c => coerce_col pn c acc) cl df = df.
Proof.
  induction cl as [|c cl IH]; intros Hall; [reflexivity|]; cbn [fold_left].
  rewrite coerce_col_absent by (apply Hall; left; reflexivity).
  apply IH; intros x Hx; apply Hall; right; exact Hx.
Qed.

(** C4 (as amended).  Absent columns are guarded in two loaders: a mail
    worksheet without a [Date] column is skipped, and when no worksheet is
    left the table has the single column [Date] and no rows; the ads loader
    converts only the numeric columns that exist, so a table without them
    (an empty insights result has no column at all) comes back unchanged.
    A query on a loaded table is not guarded: the reply count over
    ['Email Reponse '] raises [KeyError] on a table without that column. *)
Theorem absent_column_handling :
  (forall (parse : string -> option Z) (ws : worksheet) (rest : list worksheet),
     ~ In "Date" (cols (df_of_records (records ws))) ->
     get_mail_data parse (ws :: rest) = get_mail_data parse rest)
  /\
  (forall (parse : string -> option Z) (wss : list worksheet),
     (forall ws, In ws wss -> ~ In "Date" (cols (df_of_records (records ws)))) ->
     get_mail_data parse wss = mk_frame ["Date"] [])
  /\
  (forall (parse_num : string -> option Q) (df : frame),
     cols (fb_normalize parse_num df) = cols df /\
     ((forall c, In c fb_numeric_cols -> ~ In c (cols df)) -> fb_normalize parse_num df = df))
  /\
  (forall f : frame, ~ In "Email Reponse " (cols f) -> mail_reply_count f = Raise KeyError).
Proof.
  split; [|split; [|split]].
  - intros parse ws rest Hn; unfold get_mail_data; simpl.
    now rewrite mail_sheet_no_date.
  - intros parse wss Hall; unfold get_mail_data.
    replace (flat_map _ wss) with (@nil frame); [reflexivity|].
    induction wss as [|ws t IH]; [reflexivity|]; simpl.
    rewrite mail_sheet_no_date by (apply Hall; left; reflexivity).
    apply IH; intros w Hw; apply Hall; right; exact Hw.
  - intros pn df; split.
    + exact (proj1 (fold_coerce_rows pn fb_numeric_cols df)).
    + intros Hall; unfold fb_normalize; exact (fold_coerce_absent pn fb_numeric_cols df Hall).
  - intros f Hn; unfold mail_reply_count; now rewrite getcol_absent.
Qed.

Definition c4_sheet : worksheet := mk_worksheet "Relances" [[("Date", VStr "2024-01-01")]].
Definition c4_sheet_nodate : worksheet := mk_worksheet "Notes" [[("Contact", VStr "x")]].

(** An insights result with no numeric column. *)
Definition c4_ads : frame := df_of_records [[("ad_name", VStr "Ad 1")]].

Lemma absent_column_handling_witness :
  get_mail_data parse_iso [c4_sheet_nodate; c4_sheet] = get_mail_data parse_iso [c4_sheet] /\
  get_mail_data parse_iso [c4_sheet_nodate] = mk_frame ["Date"] [] /\
  fb_normalize parse_dec c4_ads = c4_ads /\
  mail_reply_count (get_mail_data parse_iso [c4_sheet]) = Raise KeyError.
Proof.
  destruct absent_column_handling as [H1 [H2 [H3 H4]]].
  split; [|split; [|split]].
  - apply H1; vm_compute; intuition discriminate.
  - apply H2; intros ws [<-|[]]; vm_compute; intuition discriminate.
  - apply (proj2 (H3 parse_dec c4_ads)); clear; intros c Hc Hin.
    destruct Hin as [<-|[]]; vm_compute in Hc; intuition discriminate.
  - apply H4; vm_compute; intuition discriminate.
Defined.

(** C4 counterexample: a mail sheet with dates but no reply column loads
    fine (it is not empty and its dates parse), and the reply count over it
    raises [KeyError] instead of returning an empty or zero result. *)
Lemma reply_count_missing_column_raises :
  frame_empty (get_mail_data parse_iso [c4_sheet]) = false /\
  mail_reply_count (get_mail_data parse_iso [c4_sheet]) = Raise KeyError.
Proof. vm_compute; split; reflexivity. Qed.

(** ** Generic facts about [groupby_agg] *)

Section GroupByFacts.
Context {K R A : Type}.
Variable cmp : K -> K -> comparison.
Variable one : R -> A.
Variable add : A -> R -> A.
Hypothesis cmp_eq : forall a b, cmp a b = Eq <-> a = b.
Hypothesis cmp_antisym : forall a b, cmp a b = CompOpp (cmp b a).
Hypothesis cmp_trans : forall a b c, cmp a b = Lt -> cmp b c = Lt -> cmp a c = Lt.

Definition key_lt (x y : K * A) : Prop := cmp (fst x) (fst y) = Lt.

Fixpoint assoc (k : K) (l : list (K * A)) : option A :=
  match l with
  | [] => None
  | (k', a) :: t => match cmp k k' with Eq => Some a | _ => assoc k t end
  end.

Definition upd (r : R) (o : option A) : A :=
  match o with Some a => add a r | None => one r end.

(** The aggregate of the rows whose key is [k], folded in row order. *)
Definition agg_from (key : R -> option K) (k : K) (rows : list R) (o : option A) : option A :=
  fold_left (fun o r => match key r with
                        | Some k' => match cmp k k' with Eq => Some (upd r o) | _ => o end
                        | None => o
                        end) rows o.

Lemma cmp_refl (a : K) : cmp a a = Eq.
Proof. now apply cmp_eq. Qed.

Lemma cmp_gt_lt (a b : K) : cmp a b = Gt -> cmp b a = Lt.
Proof. intros H; rewrite cmp_antisym, H; reflexivity. Qed.

Lemma gb_insert_Forall (k0 k : K) (r : R) (acc : list (K * A)) :
  Forall (fun p => cmp k0 (fst p) = Lt) acc -> cmp k0 k = Lt ->
  Forall (fun p => cmp k0 (fst p) = Lt) (gb_insert cmp one add k r acc).
Proof.
  intros Hf Hk; induction acc as [|[k' a] t IH]; simpl.
  - constructor; [exact Hk | constructor].
  - inversion Hf as [|x y Hx Ht]; subst.
    destruct (cmp k k'); constructor; auto.
Qed.

Lemma gb_insert_sorted (k : K) (r : R) (acc : list (K * A)) :
  StronglySorted key_lt acc -> StronglySorted key_lt (gb_insert cmp one add k r acc).
Proof.
  induction acc as [|[k' a] t IH]; simpl; intros Hs.
  - repeat constructor.
  - inversion Hs as [|x y Ht Hf]; subst.
    destruct (cmp k k') eqn:E.
    + constructor; [exact Ht|exact Hf].
    + constructor; [exact Hs|].
      constructor; [exact E|].
      eapply Forall_impl; [|exact Hf]; intros p Hp; exact (cmp_trans _ _ _ E Hp).
    + constructor; [now apply IH|].
      apply gb_insert_Forall; [exact Hf|now apply cmp_gt_lt].
Qed.

Lemma assoc_none (k : K) (l : list (K * A)) :
  Forall (fun p => cmp k (fst p) = Lt) l -> assoc k l = None.
Proof.
  induction l as [|[k' a] t IH]; simpl; intros Hf; [reflexivity|].
  inversion Hf as [|x y Hx Ht]; subst; simpl in Hx; rewrite Hx; auto.
Qed.

Lemma assoc_insert (k k' : K) (r : R) (acc : list (K * A)) :
  StronglySorted key_lt acc ->
  assoc k' (gb_insert cmp one add k r acc)
  = match cmp k' k with Eq => Some (upd r (assoc k acc)) | _ => assoc k' acc end.
Proof.
  induction acc as [|[k1 a] t IH]; simpl; intros Hs.
  - destruct (cmp k' k); reflexivity.
  - inversion Hs as [|x y Ht Hf]; subst.
    destruct (cmp k k1) eqn:E.
    + apply cmp_eq in E; subst k1; simpl; destruct (cmp k' k); reflexivity.
    + simpl; destruct (cmp k' k) eqn:E'; [|reflexivity|reflexivity].
      rewrite assoc_none; [reflexivity|].
      eapply Forall_impl; [|exact Hf]; intros p Hp; exact (cmp_trans _ _ _ E Hp).
    + simpl; rewrite (IH Ht).
      destruct (cmp k' k1) eqn:E1.
      * apply cmp_eq in E1; subst k'.
        rewrite (cmp_gt_lt _ _ E); reflexivity.
      * destruct (cmp k' k); reflexivity.
      * destruct (cmp k' k); reflexivity.
Qed.

Lemma groupby_sorted_from (key : R -> option K) (rows : list R) (acc : list (K * A)) :
  StronglySorted key_lt acc ->
  StronglySorted key_lt (fold_left (gb_step cmp one add key) rows acc).
Proof.
  revert acc; induction rows as [|r t IH]; simpl; intros acc Hs; [exact Hs|].
  apply IH; unfold gb_step; destruct (key r); [now apply gb_insert_sorted | exact Hs].
Qed.

Lemma groupby_sorted (key : R -> option K) (rows : list R) :
  StronglySorted key_lt (groupby_agg cmp one add key rows).
Proof. apply groupby_sorted_from; constructor. Qed.

Lemma groupby_assoc_from (key : R -> option K) (k : K) (rows : list R) (acc : list (K * A)) :
  StronglySorted key_lt acc ->
  assoc k (fold_left (gb_step cmp one add key) rows acc) = agg_from key k rows (assoc k acc).
Proof.
  revert acc; induction rows as [|r t IH]; simpl; intros acc Hs; [reflexivity|].
  unfold agg_from in *; simpl.
  rewrite IH by (unfold gb_step; destruct (key r); [now apply gb_insert_sorted | exact Hs]).
  f_equal; unfold gb_step; destruct (key r) as [k'|]; [|reflexivity].
  rewrite assoc_insert by exact Hs.
  destruct (cmp k k') eqn:E; try reflexivity.
  apply cmp_eq in E; subst k'; reflexivity.
Qed.

Lemma groupby_assoc (key : R -> option K) (k : K) (rows : list R) :
  assoc k (groupby_agg cmp one add key rows) = agg_from key k rows None.
Proof. apply groupby_assoc_from; constructor. Qed.

Lemma In_assoc (k : K) (a : A) (l : list (K * A)) :
  StronglySorted key_lt l -> In (k, a) l -> assoc k l = Some a.
Proof.
  induction l as [|[k' a'] t IH]; simpl; intros Hs Hin; [contradiction|].
  inversion Hs as [|x y Ht Hf]; subst.
  destruct Hin as [Heq|Hin].
  - inversion Heq; subst; rewrite cmp_refl; reflexivity.
  - rewrite Forall_forall in Hf; specialize (Hf _ Hin); unfold key_lt in Hf; simpl in Hf.
    rewrite cmp_antisym, Hf; simpl; auto.
Qed.

Lemma assoc_In (k : K) (a : A) (l : list (K * A)) :
  assoc k l = Some a -> In (k, a) l.
Proof.
  induction l as [|[k' a'] t IH]; simpl; intros H; [discriminate|].
  destruct (cmp k k') eqn:E; auto.
  apply cmp_eq in E; inversion H; subst; left; reflexivity.
Qed.

Lemma groupby_In_iff (key : R -> option K) (rows : list R) (k : K) (a : A) :
  In (k, a) (groupby_agg cmp one add key rows) <-> agg_from key k rows None = Some a.
Proof.
  rewrite <- groupby_assoc; split; [apply In_assoc, groupby_sorted | apply assoc_In].
Qed.
End GroupByFacts.

(** ** Group sizes *)

Definition count_key {K R : Type} (cmp : K -> K -> comparison) (key : R -> option K)
    (k : K) (rows : list R) : nat :=
  List.length (filter (fun r => match key r with
                                | Some k' => match cmp k k' with Eq => true | _ => false end
                                | None => false
                                end) rows).

Definition sum_counts {K : Type} (l : list (K * nat)) : nat :=
  fold_right (fun p acc => (snd p + acc)%nat) 0%nat l.

Lemma agg_from_size {K R : Type} (cmp : K -> K -> comparison) (key : R -> option K)
    (k : K) (rows : list R) (o : option nat) :
  agg_from cmp size_one size_add key k rows o
  = match o, count_key cmp key k rows with
    | Some n, c => Some (n + c)%nat
    | None, O => None
    | None, c => Some c
    end.
Proof.
  revert o; induction rows as [|r t IH]; intros o.
  - destruct o; simpl; [now rewrite Nat.add_0_r | reflexivity].
  - unfold agg_from in *; unfold count_key in *; simpl; rewrite IH.
    destruct (key r) as [k'|]; [destruct (cmp k k')|]; simpl;
      destruct o as [n|]; simpl; try reflexivity;
      try (f_equal; lia);
      destruct (List.length _); reflexivity.
Qed.

Lemma groupby_size_In {K R : Type} (cmp : K -> K -> comparison) (key : R -> option K)
    (rows : list R) (k : K) (n : nat) :
  (forall a b, cmp a b = Eq <-> a = b) ->
  (forall a b, cmp a b = CompOpp (cmp b a)) ->
  (forall a b c, cmp a b = Lt -> cmp b c = Lt -> cmp a c = Lt) ->
  In (k, n) (groupby_agg cmp size_one size_add key rows)
  <-> n = count_key cmp key k rows /\ (0 < n)%nat.
Proof.
  intros He Ha Ht; rewrite groupby_In_iff by assumption; rewrite agg_from_size.
  destruct (count_key cmp key k rows) as [|c]; split.
  - discriminate.
  - intros [-> H]; lia.
  - intros H; inversion H; split; [reflexivity | lia].
  - intros [-> _]; reflexivity.
Qed.

Lemma sum_counts_cons {K : Type} (p : K * nat) (l : list (K * nat)) :
  sum_counts (p :: l) = (snd p + sum_counts l)%nat.
Proof. reflexivity. Qed.

Lemma gb_insert_size_sum {K R : Type} (cmp : K -> K -> comparison) (k : K) (r : R)
    (acc : list (K * nat)) :
  sum_counts (gb_insert cmp size_one size_add k r acc) = S (sum_counts acc).
Proof.
  induction acc as [|[k' a] t IH]; cbn [gb_insert]; [reflexivity|].
  destruct (cmp k k'); rewrite ?sum_counts_cons, ?IH; cbn [snd]; unfold size_add, size_one;
    rewrite ?sum_counts_cons; cbn [snd]; lia.
Qed.

Lemma groupby_size_sum_from {K R : Type} (cmp : K -> K -> comparison) (key : R -> option K)
    (rows : list R) (acc : list (K * nat)) :
  sum_counts (fold_left (gb_step cmp size_one size_add key) rows acc)
  = (sum_counts acc + List.length (filter (fun r => match key r with Some _ => true | None => false end) rows))%nat.
Proof.
  revert acc; induction rows as [|r t IH]; intros acc; simpl; [lia|].
  rewrite IH; unfold gb_step; destruct (key r); simpl;
    [rewrite gb_insert_size_sum; lia | lia].
Qed.

Lemma StronglySorted_mono {T : Type} (P Q' : T -> T -> Prop) (l : list T) :
  (forall x y, P x y -> Q' x y) -> StronglySorted P l -> StronglySorted Q' l.
Proof.
  intros Himp; induction 1 as [|x t Hs IH Hf]; constructor; [exact IH|].
  eapply Forall_impl; [|exact Hf]; auto.
Qed.

Lemma Z_compare_trans (a b c : Z) : (a ?= b) = Lt -> (b ?= c) = Lt -> (a ?= c) = Lt.
Proof. rewrite !Z.compare_lt_iff; lia. Qed.

Lemma Z_compare_antisym (a b : Z) : (a ?= b) = CompOpp (b ?= a).
Proof. apply Z.compare_antisym. Qed.

Lemma string_compare_trans (a b c : string) :
  String.compare a b = Lt -> String.compare b c = Lt -> String.compare a c = Lt.
Proof.
  intros H1 H2; apply String_as_OT.cmp_lt.
  apply String_as_OT.cmp_lt in H1; apply String_as_OT.cmp_lt in H2.
  eapply String_as_OT.lt_trans; eassumption.
Qed.

Lemma string_compare_eq (a b : string) : String.compare a b = Eq <-> a = b.
Proof. apply String_as_OT.cmp_eq. Qed.

Lemma count_key_map {K R R' : Type} (cmp : K -> K -> comparison) (key : R -> option K)
    (g : R' -> R) (k : K) (l : list R') :
  count_key cmp key k (map g l) = count_key cmp (fun r => key (g r)) k l.
Proof.
  unfold count_key; induction l as [|x t IH]; simpl; [reflexivity|].
  destruct (key (g x)) as [k'|]; [destruct (cmp k k')|]; simpl; auto.
Qed.

(** The order facts [groupby] needs, for days and for strings. *)
Ltac cmp_facts :=
  first [ exact Z.compare_eq_iff | exact Z_compare_antisym | exact Z_compare_trans
        | exact string_compare_eq | exact String_as_OT.cmp_antisym
        | exact string_compare_trans ].

(** Day-keyed group sizes: strictly ascending days, each with its row count. *)
Lemma groupby_days {R : Type} (key : R -> option Z) (rows : list R) :
  StronglySorted (fun x y => fst x < fst y) (groupby_agg Z.compare size_one size_add key rows) /\
  (forall d n, In (d, n) (groupby_agg Z.compare size_one size_add key rows)
               <-> n = count_key Z.compare key d rows /\ (0 < n)%nat).
Proof.
  split.
  - apply (StronglySorted_mono (key_lt Z.compare)); [|apply groupby_sorted; cmp_facts].
    intros x y H; unfold key_lt in H; now apply Z.compare_lt_iff.
  - intros d n; apply groupby_size_In;
      cmp_facts.
Qed.

(** ** C6: order of the grouped aggregate *)

(** C6 (as amended).  The grouped aggregate returns one pair per distinct
    non-missing key, ordered strictly ascending by key (pandas' default
    [sort=True]), not by value; for the source distribution the value is
    the number of rows of the group.  The GA channel sums come out in the
    same key order. *)
Theorem groupby_sorted_by_key :
  (forall df : list ao_row,
     StronglySorted (fun x y => String.compare (fst x) (fst y) = Lt) (ao_source_counts df) /\
     (forall s n, In (s, n) (ao_source_counts df)
                  <-> n = count_key String.compare Source s df /\ (0 < n)%nat))
  /\
  (forall df : list ga_row,
     StronglySorted (fun x y => String.compare (fst x) (fst y) = Lt) (ga_sessions_by_channel df)).
Proof.
  split; [intros df; split|intros df].
  - apply groupby_sorted; cmp_facts.
  - intros s n; apply groupby_size_In;
      cmp_facts.
  - apply groupby_sorted; cmp_facts.
Qed.

Definition src_row (s : string) : ao_row := mk_ao_row (Some 19723) (Some s) (Some "Refus") 1.

(** C6 counterexample: the source counts of the rows [a; a; b] come out as
    [(a, 2); (b, 1)], descending in value, and those of [b; a] as
    [(a, 1); (b, 1)], against the first-seen order [b, a]. *)
Lemma source_counts_not_by_value :
  ao_source_counts [src_row "a"; src_row "a"; src_row "b"] = [("a", 2%nat); ("b", 1%nat)] /\
  ao_source_counts [src_row "b"; src_row "a"] = [("a", 1%nat); ("b", 1%nat)].
Proof. split; vm_compute; reflexivity. Qed.

(** ** C7: the daily time series *)

(** C7.  The AO and mail timelines group rows by exact day: the days come
    out strictly ascending, so without duplicates, and a pair [(d, n)]
    is in the output exactly when [n] is the number of rows dated [d] and
    is positive, so no day without rows is added. *)
Theorem timeline_daily_ascending :
  (forall df : list ao_row,
     StronglySorted (fun x y => fst x < fst y) (ao_timeline df) /\
     (forall d n, In (d, n) (ao_timeline df) <-> n = count_key Z.compare Date d df /\ (0 < n)%nat))
  /\
  (forall (f : frame) (out : list (Z * nat)),
     mail_timeline f = Ok out ->
     StronglySorted (fun x y => fst x < fst y) out /\
     (forall d n, In (d, n) out <->
        n = count_key Z.compare (fun r => date_key (lookup "Date" r)) d (rows f) /\ (0 < n)%nat)).
Proof.
  split.
  - intros df; apply groupby_days.
  - intros f out H; unfold mail_timeline, getcol in H.
    destruct (str_isin "Date" (cols f)); simpl in H; [|discriminate].
    inversion H; subst out; clear H.
    destruct (groupby_days date_key (map (lookup "Date") (rows f))) as [Hs Hi].
    split; [exact Hs|].
    intros d n; rewrite Hi, count_key_map; reflexivity.
Qed.

Definition c7_mail : frame :=
  get_mail_data parse_iso
    [mk_worksheet "S1" [[("Date", VStr "2024-01-03")]; [("Date", VStr "2024-01-01")];
                        [("Date", VStr "2024-01-03")]]].

Lemma timeline_daily_ascending_witness :
  mail_timeline c7_mail = Ok [(19723, 1%nat); (19725, 2%nat)] /\
  StronglySorted (fun x y => fst x < fst y) [(19723, 1%nat); (19725, 2%nat)].
Proof.
  assert (H : mail_timeline c7_mail = Ok [(19723, 1%nat); (19725, 2%nat)])
    by (vm_compute; reflexivity).
  split; [exact H|].
  exact (proj1 (proj2 timeline_daily_ascending c7_mail _ H)).
Defined.

(** ** C8: group sizes against the table length *)

Section GroupByCount.
Context {K R A : Type}.
Variable cmp : K -> K -> comparison.
Variable one : R -> A.
Variable add : A -> R -> A.
Variable cnt : A -> nat.
Hypothesis cnt_one : forall r, cnt (one r) = 1%nat.
Hypothesis cnt_add : forall a r, cnt (add a r) = S (cnt a).

(** The count column of a [groupby] aggregate. *)
Definition count_col (acc : list (K * A)) : list (K * nat) :=
  map (fun e => (fst e, cnt (snd e))) acc.

Lemma gb_insert_count (k : K) (r : R) (acc : list (K * A)) :
  sum_counts (count_col (gb_insert cmp one add k r acc)) = S (sum_counts (count_col acc)).
Proof.
  unfold count_col; induction acc as [|[k' a] t IH]; cbn [gb_insert].
  - cbn [map]; rewrite sum_counts_cons; cbn [snd]; rewrite cnt_one; reflexivity.
  - destruct (cmp k k'); cbn [map]; rewrite ?sum_counts_cons; cbn [snd fst];
      rewrite ?cnt_add, ?cnt_one, ?IH, ?sum_counts_cons; cbn [snd]; lia.
Qed.

Lemma groupby_count_from (key : R -> option K) (rows : list R) (acc : list (K * A)) :
  sum_counts (count_col (fold_left (gb_step cmp one add key) rows acc))
  = (sum_counts (count_col acc)
     + List.length (filter (fun r => match key r with Some _ => true | None => false end) rows))%nat.
Proof.
  revert acc; induction rows as [|r t IH]; intros acc; cbn [fold_left filter List.length].
  - lia.
  - rewrite IH; unfold gb_step; destruct (key r) as [k|]; [|reflexivity].
    rewrite gb_insert_count; cbn [List.length]; lia.
Qed.
End GroupByCount.

Lemma filter_keyed_all {K R : Type} (key : R -> option K) (rows : list R) :
  (forall r, In r rows -> key r <> None) ->
  filter (fun r => match key r with Some _ => true | None => false end) rows = rows.
Proof.
  induction rows as [|r t IH]; intros Hall; [reflexivity|]; cbn [filter].
  destruct (key r) eqn:E.
  - f_equal; apply IH; intros x Hx; apply Hall; right; exact Hx.
  - exfalso; apply (Hall r (or_introl eq_refl)); exact E.
Qed.

(** C8.  At the grouping sites the claim cites, the group counts sum to the
    number of rows of the grouped table:
    - the AO timeline (line 335) over the filtered rows, for every table
      whose rows all carry a date.  This is the table the page can reach:
      a [NaT] date makes [df['Date'].min()] (line 262) or the calendar of
      line 263 raise before the filter;
    - the lead counts of the funnel (lines 480-488), for every lead list:
      the keys [source] and [stage] are never missing ("Unknown" stands for
      an absent Odoo value), so every lead, with an empty or a new source
      or stage included, is counted in its own [(source, stage)] group. *)
Theorem group_sizes_sum_to_table_length :
  (forall (date_range : list Z) (sources status_list : list cell) (df : list ao_row),
     Forall (fun r => Date r <> None) df ->
     sum_counts (ao_timeline (ao_filter date_range sources status_list df))
     = List.length (ao_filter date_range sources status_list df))
  /\
  (forall (parse_num : string -> option Q) (raw : list odoo_lead),
     sum_counts (map (fun e => (fst e, fst (snd e))) (funnel (map (clean_lead parse_num) raw)))
     = List.length raw).
Proof.
  split.
  - intros dr srcs sts df Hdf.
    unfold ao_timeline, groupby_agg; rewrite groupby_size_sum_from; cbn [sum_counts fold_right].
    rewrite filter_keyed_all; [reflexivity|].
    intros r Hr; apply (proj1 (Forall_forall _ _) Hdf).
    unfold ao_filter in Hr; destruct dr as [|a [|b [|c t]]]; auto.
    apply filter_In in Hr; tauto.
  - intros pn raw; unfold funnel, groupby_agg.
    pose proof (groupby_count_from pair_compare (fun l => (1%nat, l_expected_revenue l))
                  (fun a l => (S (fst a), (snd a + l_expected_revenue l)%Q)) fst
                  (fun _ => eq_refl) (fun _ _ => eq_refl)
                  (fun l => Some (l_source l, l_stage l)) (map (clean_lead pn) raw) []) as H.
    unfold count_col in H; rewrite H; cbn [map sum_counts fold_right].
    rewrite (filter_keyed_all (fun l => Some (l_source l, l_stage l)));
      [apply length_map | intros r _; discriminate].
Qed.

(** Three rows of one day and one of the next, a one-day selection (no
    filter) and a two-day range. *)
Definition c8_df : list ao_row :=
  [mk_ao_row (Some 19723) (Some "Site") (Some "Refus") 1;
   mk_ao_row (Some 19723) (Some EmptyString) (Some "Refus") 1;
   mk_ao_row (Some 19723) (Some "Site") (Some "Accepté") 1;
   mk_ao_row (Some 19724) (Some "Mail") (Some "Refus") 1].

Lemma group_sizes_sum_to_table_length_witness :
  Forall (fun r => Date r <> None) c8_df /\
  sum_counts (ao_timeline (ao_filter [19723] [] [] c8_df)) = 4%nat /\
  sum_counts (ao_timeline (ao_filter [19723] [] [] c8_df))
  = List.length (ao_filter [19723] [] [] c8_df).
Proof.
  assert (H : Forall (fun r => Date r <> None) c8_df) by (repeat constructor; discriminate).
  split; [exact H|]; split; [vm_compute; reflexivity|].
  exact (proj1 group_sizes_sum_to_table_length [19723] [] [] c8_df H).
Defined.

(** ** C5: ratios *)

Lemma count_rows_all {R : Type} (t : list R) : count_rows (fun _ => true) t = List.length t.
Proof. unfold count_rows; induction t as [|x t IH]; simpl; auto. Qed.

Lemma inject_nat_nonzero (n : nat) : (0 < n)%nat -> ~ (inject_Z (Z.of_nat n) == 0)%Q.
Proof. intros Hn H; unfold Qeq in H; simpl in H; lia. Qed.

(** C5.  [ratio] is 0 when the denominator selects no row, and exactly 100
    when numerator and denominator select the same non-empty rows; the
    three conversion KPIs of the AO page are such ratios (the
    opportunity rate over the accepted rows, the other two over all rows). *)
Theorem ratio_zero_and_full :
  (forall (R : Type) (num den : R -> bool) (t : list R),
     count_rows den t = 0%nat -> ratio num den t = 0%Q)
  /\
  (forall (R : Type) (num den : R -> bool) (t : list R),
     filter num t = filter den t -> (0 < count_rows den t)%nat -> (ratio num den t == 100)%Q)
  /\
  (forall df : list ao_row,
     conversion_kpis df = (ratio (status_is "Refus") (fun _ => true) df,
                           ratio (status_is "Accepté") (fun _ => true) df,
                           ratio (status_is "Opportunité") (status_is "Accepté") df)).
Proof.
  split; [|split].
  - intros R num den t H; unfold ratio; rewrite H; reflexivity.
  - intros R num den t Hf Hpos; unfold ratio.
    assert (Hc : count_rows num t = count_rows den t) by (unfold count_rows; now rewrite Hf).
    rewrite Hc; destruct (Nat.ltb_spec0 0 (count_rows den t)) as [_|Hn]; [|contradiction].
    unfold Qdiv; rewrite Qmult_inv_r by (now apply inject_nat_nonzero).
    reflexivity.
  - intros df; unfold conversion_kpis, ratio; rewrite !count_rows_all.
    destruct (Nat.ltb_spec0 0 (List.length df)) as [_|Hn]; [reflexivity|].
    assert (H0 : List.length df = 0%nat) by lia.
    assert (Ha : count_rows (status_is "Accepté") df = 0%nat).
    { destruct df; [reflexivity | discriminate]. }
    rewrite Ha; reflexivity.
Qed.

Definition c5_df : list ao_row :=
  [mk_ao_row (Some 19723) (Some "Site") (Some "Accepté") 1;
   mk_ao_row (Some 19723) (Some "Site") (Some "Refus") 1].

Lemma ratio_zero_and_full_witness :
  ratio (status_is "Opportunité") (status_is "Opportunité") c5_df = 0%Q /\
  (ratio (status_is "Accepté") (status_is "Accepté") c5_df == 100)%Q.
Proof.
  destruct ratio_zero_and_full as [H1 [H2 _]]; split.
  - apply H1; reflexivity.
  - apply H2; [reflexivity | vm_compute; reflexivity].
Defined.

(** ** C9: [get_mailgun_stats] *)

(** C9 (as amended).  [get_mailgun_stats] always returns a pair (its model
    is a total function): [(0, 0)] when the request fails, the status is
    not 200, the body is not JSON, or reading the body raises; otherwise
    [(rate, opened)], where the accepted and opened totals are read with
    the default 0 and the rate is [opened / accepted * 100] when accepted
    is positive and 0 otherwise, in particular when it is 0. *)
Theorem mailgun_stats_fallbacks :
  get_mailgun_stats RequestFailed = (JNum 0, JNum 0)
  /\ (forall st b, st <> 200 -> get_mailgun_stats (Response st b) = (JNum 0, JNum 0))
  /\ get_mailgun_stats (Response 200 None) = (JNum 0, JNum 0)
  /\ (forall d e, mailgun_body d = Raise e -> get_mailgun_stats (Response 200 (Some d)) = (JNum 0, JNum 0))
  /\ (forall d acc ope, mailgun_totals d = Ok (acc, ope) -> py_gt0 acc = Ok false ->
        get_mailgun_stats (Response 200 (Some d)) = (JNum 0, ope))
  /\ (forall d ope, mailgun_totals d = Ok (JNum 0, ope) ->
        get_mailgun_stats (Response 200 (Some d)) = (JNum 0, ope))
  /\ (forall d acc ope a o, mailgun_totals d = Ok (acc, ope) -> py_num acc = Ok a ->
        (0 < a)%Q -> py_num ope = Ok o ->
        get_mailgun_stats (Response 200 (Some d)) = (JNum (o / a * 100)%Q, ope)).
Proof.
  repeat split.
  - intros st b Hst; unfold get_mailgun_stats.
    destruct st as [|p|p]; try reflexivity.
    destruct p; try reflexivity; repeat (destruct p; try reflexivity).
    contradiction.
  - intros d e H; unfold get_mailgun_stats; now rewrite H.
  - intros d acc ope Ht Hp; unfold get_mailgun_stats, mailgun_body.
    rewrite Ht; cbn -[py_gt0]; rewrite Hp; reflexivity.
  - intros d ope Ht; unfold get_mailgun_stats, mailgun_body; now rewrite Ht.
  - intros d acc ope a o Ht Ha Hpos Ho; unfold get_mailgun_stats, mailgun_body.
    rewrite Ht; cbn -[py_num Qle_bool Qmult Qdiv]; unfold py_gt0; rewrite Ha, Ho.
    cbn -[Qle_bool Qmult Qdiv].
    replace (Qle_bool a 0) with false.
    + reflexivity.
    + symmetry; apply Bool.not_true_iff_false; intros Hle.
      apply Qle_bool_iff in Hle; apply (Qlt_not_le _ _ Hpos Hle).
Qed.

Definition c9_body_no_accepted : json :=
  JObj [("stats", JArr [JObj [("opened", JObj [("total", JNum 5)])]])].

Definition c9_body_ok : json :=
  JObj [("stats", JArr [JObj [("accepted", JObj [("total", JNum 4)]);
                              ("opened", JObj [("total", JNum 1)])]])].

Lemma mailgun_stats_fallbacks_witness :
  get_mailgun_stats (Response 404 None) = (JNum 0, JNum 0) /\
  get_mailgun_stats (Response 200 (Some (JArr []))) = (JNum 0, JNum 0) /\
  get_mailgun_stats (Response 200 (Some c9_body_ok)) = (JNum (1 / 4 * 100)%Q, JNum 1).
Proof.
  destruct mailgun_stats_fallbacks as [_ [H2 [_ [H4 [_ [_ H7]]]]]].
  split; [|split].
  - apply H2; discriminate.
  - apply (H4 _ AttributeError); reflexivity.
  - apply (H7 c9_body_ok (JNum 4) (JNum 1) 4%Q 1%Q); reflexivity.
Defined.

(** C9 counterexample: a body whose stats carry an opened total but no
    accepted count gives [(0, 5)], not [(0, 0)]. *)
Lemma mailgun_missing_accepted_keeps_opens :
  get_mailgun_stats (Response 200 (Some c9_body_no_accepted)) = (JNum 0, JNum 5) /\
  get_mailgun_stats (Response 200 (Some c9_body_no_accepted)) <> (JNum 0, JNum 0).
Proof.
  split; [reflexivity|].
  vm_compute; discriminate.
Qed.

(** ** C10: the Meta ROI of the Financial Impact page *)

(** C10.  Only the Meta Ads branch binds [df_fb], and a run renders a
    single page; so every run of the Financial Impact page that reaches the
    ROI block computes a Meta spend of 0 and a Meta ROI of 0, whatever the
    Meta revenue. *)
Theorem meta_roi_always_zero :
  (forall (p : page) (inp : run_inputs),
     in_locals "df_fb" (fst (run_script p inp)) = true -> p = MetaAds)
  /\
  (forall (inp : run_inputs) (e : env) (v : roi_view),
     run_script FinancialImpact inp = (e, Some v) ->
     meta_spend v = 0%Q /\ roi v = 0%Q /\ meta_revenue v = meta_revenue_in inp).
Proof.
  split.
  - intros p inp H; destruct p; try reflexivity; simpl in H;
      try (destruct (leads_empty inp)); vm_compute in H; discriminate.
  - intros inp e v H; simpl in H.
    destruct (leads_empty inp); [discriminate|].
    inversion H; subst v; clear H.
    vm_compute; repeat split.
Qed.

Definition c10_inputs : run_inputs := mk_run_inputs [19716; 19723] [120%Q; 30%Q] false 5000.

Lemma meta_roi_always_zero_witness :
  run_script FinancialImpact c10_inputs = (fst (run_script FinancialImpact c10_inputs),
                                           Some (mk_roi_view 0 5000 0)) /\
  meta_spend (mk_roi_view 0 5000 0) = 0%Q /\ roi (mk_roi_view 0 5000 0) = 0%Q /\
  meta_revenue (mk_roi_view 0 5000 0) = meta_revenue_in c10_inputs.
Proof.
  assert (H : run_script FinancialImpact c10_inputs
              = (fst (run_script FinancialImpact c10_inputs), Some (mk_roi_view 0 5000 0)))
    by (vm_compute; reflexivity).
  split; [exact H|].
  exact (proj2 meta_roi_always_zero c10_inputs _ _ H).
Defined.

(** * Further properties of the code *)

Lemma prefix_app (s t : string) : String.prefix s (s ++ t) = true.
Proof.
  induction s as [|a s IH]; simpl; [destruct t; reflexivity|].
  destruct (ascii_dec a a); [exact IH | contradiction].
Qed.

(** X1. [get_fb_ads_data] always queries an account id starting with "act_": the normalisation is idempotent and leaves an id that already has the prefix unchanged. *)
Lemma fb_account_id_prefixed (account_id : string) :
  String.prefix "act_" (fb_account_id account_id) = true /\
  fb_account_id (fb_account_id account_id) = fb_account_id account_id /\
  (String.prefix "act_" account_id = true -> fb_account_id account_id = account_id).
Proof.
  unfold fb_account_id; destruct (String.prefix "act_" account_id) eqn:E.
  - rewrite E; auto.
  - assert (P : String.prefix "act_" ("act_" ++ account_id) = true) by apply prefix_app.
    rewrite P; repeat split; auto; discriminate.
Qed.

(** Printing and parsing decimal digits *)

Lemma digit_val_of (k : Z) : 0 <= k < 10 -> digit_val (ascii_of_nat (48 + Z.to_nat k)%nat) = Some k.
Proof.
  intros Hk; unfold digit_val.
  rewrite nat_ascii_embedding by lia.
  replace (Z.of_nat (48 + Z.to_nat k) - 48) with k by lia.
  replace ((0 <=? k) && (k <=? 9)) with true; [reflexivity|].
  symmetry; apply andb_true_iff; split; apply Z.leb_le; lia.
Qed.

Lemma str_of_nonneg_aux_digits (fuel : nat) (n : Z) (acc : string) :
  0 <= n -> (Z.to_nat n < fuel)%nat ->
  digits_acc 0 (str_of_nonneg_aux fuel n acc) = digits_acc n acc.
Proof.
  revert n acc; induction fuel as [|f IH]; intros n acc Hn Hf; [lia|].
  cbn [str_of_nonneg_aux].
  assert (Hm : 0 <= n mod 10 < 10) by (apply Z.mod_pos_bound; lia).
  assert (Hd : n = 10 * (n / 10) + n mod 10) by (apply Z.div_mod; lia).
  destruct (n <? 10) eqn:E.
  - apply Z.ltb_lt in E.
    cbn [digits_acc]; rewrite digit_val_of by exact Hm.
    rewrite Z.mod_small by lia; reflexivity.
  - apply Z.ltb_ge in E.
    rewrite IH; [| apply Z.div_pos; lia | ].
    + cbn [digits_acc]; rewrite digit_val_of by exact Hm.
      rewrite <- Hd; reflexivity.
    + assert (n / 10 < n) by (apply Z.div_lt; lia). lia.
Qed.

Lemma str_of_nonneg_aux_nonempty (fuel : nat) (n : Z) (acc : string) :
  acc <> EmptyString -> str_of_nonneg_aux fuel n acc <> EmptyString.
Proof.
  revert n acc; induction fuel as [|f IH]; intros n acc H; cbn [str_of_nonneg_aux]; [exact H|].
  destruct (n <? 10); [discriminate|apply IH; discriminate].
Qed.

Lemma parse_digits_str_of_Z (n : Z) : 0 <= n -> parse_digits (str_of_Z n) = Some n.
Proof.
  intros Hn; unfold str_of_Z.
  replace (n <? 0) with false by (symmetry; apply Z.ltb_ge; lia).
  assert (Hne : str_of_nonneg_aux (S (Z.to_nat n)) n EmptyString <> EmptyString).
  { cbn [str_of_nonneg_aux]; destruct (n <? 10);
      [discriminate | apply str_of_nonneg_aux_nonempty; discriminate]. }
  unfold parse_digits.
  destruct (str_of_nonneg_aux (S (Z.to_nat n)) n EmptyString) eqn:E; [contradiction|].
  rewrite <- E, str_of_nonneg_aux_digits by lia; reflexivity.
Qed.

(** X2. The Mailgun duration built from a date range [start; end] is a decimal number followed by "d", and that number is max 1 (end - start). *)
Lemma mail_duration_parses_back (start_m end_m : Z) :
  exists digits, mail_stats_duration [start_m; end_m] = digits ++ "d" /\
                 parse_digits digits = Some (Z.max 1 (end_m - start_m)).
Proof.
  unfold mail_stats_duration.
  eexists; split; [reflexivity|].
  destruct (0 <? end_m - start_m) eqn:E.
  - apply Z.ltb_lt in E; rewrite Z.max_r by lia; apply parse_digits_str_of_Z; lia.
  - apply Z.ltb_ge in E; rewrite Z.max_l by lia; apply parse_digits_str_of_Z; lia.
Qed.

(** X5. The average session duration of a GA row is never +inf nor NaN; it is -inf exactly when the row has zero sessions and a negative engagement duration. *)
Lemma avg_session_duration_no_inf_nan (r : ga_row) :
  avgSessionDurationSec r <> PInf /\ avgSessionDurationSec r <> NaN /\
  (avgSessionDurationSec r = NInf <-> (sessions r == 0 /\ userEngagementDuration r < 0)%Q).
Proof.
  unfold avgSessionDurationSec, fdiv.
  destruct (Qeq_bool (sessions r) 0) eqn:Es.
  - apply Qeq_bool_iff in Es.
    destruct (Qeq_bool (userEngagementDuration r) 0) eqn:Eu.
    + apply Qeq_bool_iff in Eu; cbn; repeat split; try discriminate.
      intros [_ H]; rewrite Eu in H; discriminate.
    + apply Qeq_bool_neq in Eu.
      destruct (Qlt_le_dec 0 (userEngagementDuration r)) as [Hp|Hn]; cbn.
      * repeat split; try discriminate. intros [_ H]; lra.
      * repeat split; try discriminate; [exact Es|]. lra.
  - apply Qeq_bool_neq in Es; cbn; repeat split; try discriminate.
    intros [H _]; contradiction.
Qed.

(** X6. The GA duration filter keeps a row exactly when its sessions are non-zero and its engagement duration per session exceeds one second. *)
Lemma over_one_second_keeps (r : ga_row) :
  fgt1 (avgSessionDurationSec r) = true
  <-> (~ sessions r == 0 /\ 1 < userEngagementDuration r / sessions r)%Q.
Proof.
  unfold avgSessionDurationSec, fdiv.
  destruct (Qeq_bool (sessions r) 0) eqn:Es.
  - apply Qeq_bool_iff in Es.
    assert (F : fgt1 (Fin 0) = false) by reflexivity.
    destruct (Qeq_bool (userEngagementDuration r) 0);
      [|destruct (Qlt_le_dec 0 (userEngagementDuration r))]; cbn;
      split; try discriminate; intros [H _]; contradiction.
  - apply Qeq_bool_neq in Es; cbn.
    rewrite negb_true_iff; split.
    + intros H; split; [exact Es|]; apply Qnot_le_lt; intros Hle.
      apply Qle_bool_iff in Hle; congruence.
    + intros [_ H]; destruct (Qle_bool _ _) eqn:E; [|reflexivity].
      apply Qle_bool_iff in E; exfalso; exact (Qlt_not_le _ _ H E).
Qed.


Lemma filter_compose {A : Type} (p q : A -> bool) (l : list A) :
  filter q (filter p l) = filter (fun x => p x && q x) l.
Proof.
  induction l as [|x t IH]; simpl; [reflexivity|].
  destruct (p x); simpl; [destruct (q x); simpl; rewrite IH; reflexivity | exact IH].
Qed.

Lemma filter_all_true {A : Type} (l : list A) : filter (fun _ => true) l = l.
Proof. induction l as [|x t IH]; simpl; [reflexivity | now rewrite IH]. Qed.

Lemma filter_idem {A : Type} (p : A -> bool) (l : list A) : filter p (filter p l) = filter p l.
Proof.
  rewrite filter_compose; apply filter_ext; intros x; destruct (p x); reflexivity.
Qed.

Lemma ga_filter_is_filter (cs ss ps : list string) (m : duration_choice) :
  exists p, forall df, ga_filter cs ss ps m df = filter p df.
Proof.
  exists (fun r => match cs with [] => true | _ => str_isin (country r) cs end
                && match ss with [] => true | _ => str_isin (sessionDefaultChannelGroup r) ss end
                && match ps with [] => true | _ => str_isin (pagePath r) ps end
                && match m with SessionsOver1s => fgt1 (avgSessionDurationSec r) | AllSessions => true end).
  intros df; unfold ga_filter.
  destruct cs, ss, ps, m; rewrite ?filter_compose;
    try (symmetry; apply filter_all_true);
    apply filter_ext; intros x; rewrite ?andb_true_r, ?andb_true_l, ?andb_assoc; reflexivity.
Qed.

(** X7. Applying the sidebar filters of the Appels d'Offres page or of the Google Analytics page twice gives the same rows as applying them once, and the result is a sub-list of the input. *)
Lemma sidebar_filters_idempotent :
  (forall (cs ss ps : list string) (m : duration_choice) (df : list ga_row),
     ga_filter cs ss ps m (ga_filter cs ss ps m df) = ga_filter cs ss ps m df /\
     incl (ga_filter cs ss ps m df) df)
  /\
  (forall (date_range : list Z) (sources status_list : list cell) (df : list ao_row),
     ao_filter date_range sources status_list (ao_filter date_range sources status_list df)
     = ao_filter date_range sources status_list df /\
     incl (ao_filter date_range sources status_list df) df).
Proof.
  split.
  - intros cs ss ps m df; destruct (ga_filter_is_filter cs ss ps m) as [p Hp].
    rewrite !Hp; split; [apply filter_idem|].
    intros r Hr; apply filter_In in Hr; tauto.
  - intros dr srcs sts df; unfold ao_filter.
    destruct dr as [|a [|b [|c t]]]; try (split; [reflexivity | apply incl_refl]).
    split; [apply filter_idem|]; intros r Hr; apply filter_In in Hr; tauto.
Qed.

(** Counting rows *)

Lemma count_rows_le {R : Type} (p : R -> bool) (t : list R) : (count_rows p t <= List.length t)%nat.
Proof. unfold count_rows; induction t as [|x t IH]; simpl; [lia|destruct (p x); simpl; lia]. Qed.

(** Percentages *)

Lemma inject_nat_pos (n : nat) : (0 < n)%nat -> (0 < inject_Z (Z.of_nat n))%Q.
Proof. intros H; unfold Qlt; simpl; lia. Qed.

Lemma inject_nat_lt (a b : nat) : (a < b)%nat -> (inject_Z (Z.of_nat a) < inject_Z (Z.of_nat b))%Q.
Proof. intros H; unfold Qlt; simpl; lia. Qed.

Lemma pct_times (x t : Q) : (0 < t)%Q -> (x / t * 100 * t == x * 100)%Q.
Proof. intros Ht; field; intros E; rewrite E in Ht; discriminate. Qed.

Lemma pct_le_100 (x t : Q) : (0 < t)%Q -> (x <= t)%Q -> (x / t * 100 <= 100)%Q.
Proof.
  intros Ht Hx; apply (Qmult_le_r _ _ t Ht); rewrite pct_times by exact Ht; lra.
Qed.

Lemma pct_nonneg (x t : Q) : (0 < t)%Q -> (0 <= x)%Q -> (0 <= x / t * 100)%Q.
Proof.
  intros Ht Hx; apply (Qmult_le_r _ _ t Ht); rewrite pct_times by exact Ht; lra.
Qed.

Lemma pct_gt_100 (x t : Q) : (0 < t)%Q -> (t < x)%Q -> (100 < x / t * 100)%Q.
Proof.
  intros Ht Hx; apply (Qmult_lt_r _ _ t Ht); rewrite pct_times by exact Ht; lra.
Qed.

Lemma pct_neg_iff (x t : Q) : (0 < t)%Q -> ((x / t * 100 < 0)%Q <-> (x < 0)%Q).
Proof.
  intros Ht; rewrite <- (Qmult_lt_r _ _ t Ht), pct_times by exact Ht; lra.
Qed.

Lemma Qle_bool_false_lt (x y : Q) : Qle_bool x y = false -> (y < x)%Q.
Proof.
  intros H; apply Qnot_le_lt; intros Hle; apply Qle_bool_iff in Hle; congruence.
Qed.

(** X9. The opportunity conversion rate exceeds 100 whenever there are more Opportunité rows than (at least one) Accepté rows. *)
Lemma opportunity_rate_above_100 (df_filtered : list ao_row) :
  (0 < count_rows (status_is "Accepté") df_filtered)%nat ->
  (count_rows (status_is "Accepté") df_filtered < count_rows (status_is "Opportunité") df_filtered)%nat ->
  let '(_, _, rate_opp) := conversion_kpis df_filtered in (100 < rate_opp)%Q.
Proof.
  intros Ha Hlt; unfold conversion_kpis.
  assert (E : (0 < List.length df_filtered)%nat).
  { pose proof (count_rows_le (status_is "Accepté") df_filtered); lia. }
  apply Nat.ltb_lt in E; rewrite E.
  apply Nat.ltb_lt in Ha; rewrite Ha; apply Nat.ltb_lt in Ha.
  apply pct_gt_100; [apply inject_nat_pos; exact Ha | apply inject_nat_lt; exact Hlt].
Qed.

(** Column sums *)

Lemma colsum_cons {R : Type} (f : R -> Q) (x : R) (t : list R) :
  colsum f (x :: t) = (f x + colsum f t)%Q.
Proof. reflexivity. Qed.

Lemma colsum_nonneg {R : Type} (f : R -> Q) (t : list R) :
  Forall (fun r => 0 <= f r)%Q t -> (0 <= colsum f t)%Q.
Proof. induction 1 as [|x t Hx _ IH]; [apply Qle_refl|rewrite colsum_cons; lra]. Qed.

Lemma colsum_le {R : Type} (f g : R -> Q) (t : list R) :
  Forall (fun r => f r <= g r)%Q t -> (colsum f t <= colsum g t)%Q.
Proof. induction 1 as [|x t Hx _ IH]; [apply Qle_refl|rewrite !colsum_cons; lra]. Qed.

Lemma colsum_one {R : Type} (t : list R) :
  (colsum (fun _ => 1) t == inject_Z (Z.of_nat (List.length t)))%Q.
Proof.
  induction t as [|x t IH]; [reflexivity|].
  rewrite colsum_cons, IH; cbn [List.length]; rewrite Nat2Z.inj_succ.
  unfold Z.succ; rewrite inject_Z_plus; change (inject_Z 1) with 1%Q; lra.
Qed.

(** X10. The returning-users rate is at most 100 when new users are non-negative, and it is negative exactly when active users are positive but fewer than new users. *)
Lemma ga_returning_rate (df_filtered : list ga_row) :
  (Forall (fun r => 0 <= newUsers r)%Q df_filtered -> (snd (ga_snapshot df_filtered) <= 100)%Q) /\
  ((snd (ga_snapshot df_filtered) < 0)%Q <->
   (0 < colsum activeUsers df_filtered /\ colsum activeUsers df_filtered < colsum newUsers df_filtered)%Q).
Proof.
  unfold ga_snapshot; cbn [snd].
  destruct (Qle_bool (colsum activeUsers df_filtered) 0) eqn:E; cbn [negb].
  - apply Qle_bool_iff in E; split; [intros _; discriminate|].
    split; [intros H; exfalso; exact (Qlt_irrefl _ H) | intros [H _]; lra].
  - apply Qle_bool_false_lt in E; split.
    + intros Hn; apply colsum_nonneg in Hn; apply pct_le_100; lra.
    + rewrite pct_neg_iff by exact E; lra.
Qed.

(** X11. The average engagement rate is NaN exactly on an empty frame; on a non-empty frame of rates within [0, 1] it is a number within [0, 100]. *)
Lemma engagement_rate_mean (df_filtered : list ga_row) :
  (avg_engagement_rate df_filtered = NaN <-> df_filtered = []) /\
  (df_filtered <> [] -> Forall (fun r => 0 <= engagementRate r <= 1)%Q df_filtered ->
   exists q, avg_engagement_rate df_filtered = Fin q /\ (0 <= q <= 100)%Q).
Proof.
  unfold avg_engagement_rate, series_mean.
  destruct df_filtered as [|x t]; [split; [tauto | intros H; contradiction]|].
  split; [split; discriminate|].
  intros _ Hb; eexists; split; [reflexivity|].
  assert (Hn : (0 < inject_Z (Z.of_nat (List.length (x :: t))))%Q)
    by (apply inject_nat_pos; simpl; lia).
  assert (H0 : (0 <= colsum engagementRate (x :: t))%Q).
  { apply colsum_nonneg; eapply Forall_impl; [|exact Hb]; intros r []; assumption. }
  assert (H1 : (colsum engagementRate (x :: t) <= colsum (fun _ => 1) (x :: t))%Q).
  { apply colsum_le; eapply Forall_impl; [|exact Hb]; intros r []; assumption. }
  rewrite colsum_one in H1.
  split; [apply pct_nonneg | apply pct_le_100]; assumption.
Qed.


(** Sums of [groupby] aggregates *)

Section GroupBySum.
Context {K R A : Type}.
Variable cmp : K -> K -> comparison.
Variable one : R -> A.
Variable add : A -> R -> A.
Variable g : A -> Q.
Variable f : R -> Q.
Variable P : K -> bool.
Hypothesis cmp_eq_l : forall a b, cmp a b = Eq -> a = b.
Hypothesis g_one : forall r, (g (one r) == f r)%Q.
Hypothesis g_add : forall a r, (g (add a r) == g a + f r)%Q.

Definition group_total (acc : list (K * A)) : Q :=
  colsum (fun e => g (snd e)) (filter (fun e => P (fst e)) acc).

Definition keyed_total (key : R -> option K) (rows : list R) : Q :=
  colsum f (filter (fun r => match key r with Some k => P k | None => false end) rows).

Lemma gb_insert_total (k : K) (r : R) (acc : list (K * A)) :
  (group_total (gb_insert cmp one add k r acc) == group_total acc + (if P k then f r else 0))%Q.
Proof.
  unfold group_total; induction acc as [|[k' a] t IH]; cbn [gb_insert].
  - cbn [filter fst snd]; destruct (P k); [rewrite colsum_cons; specialize (g_one r)|]; cbn; lra.
  - destruct (cmp k k') eqn:E.
    + apply cmp_eq_l in E; subst k'; cbn [filter fst snd].
      destruct (P k); [rewrite !colsum_cons; cbn [snd]; specialize (g_add a r); lra | lra].
    + cbn [filter fst snd].
      destruct (P k), (P k'); rewrite ?colsum_cons; cbn [snd]; specialize (g_one r); lra.
    + cbn [filter fst snd].
      destruct (P k'); rewrite ?colsum_cons; cbn [snd]; lra.
Qed.

Lemma groupby_total_from (key : R -> option K) (rows : list R) (acc : list (K * A)) :
  (group_total (fold_left (gb_step cmp one add key) rows acc) == group_total acc + keyed_total key rows)%Q.
Proof.
  unfold keyed_total; revert acc; induction rows as [|r t IH]; intros acc; cbn [fold_left filter].
  - cbn; lra.
  - rewrite IH; unfold gb_step; destruct (key r) as [k|].
    + rewrite gb_insert_total; destruct (P k); rewrite ?colsum_cons; lra.
    + lra.
Qed.

Lemma groupby_total (key : R -> option K) (rows : list R) :
  (group_total (groupby_agg cmp one add key rows) == keyed_total key rows)%Q.
Proof. unfold groupby_agg; rewrite groupby_total_from; unfold group_total; cbn; lra. Qed.
End GroupBySum.

Lemma string_compare_eq_l (a b : string) : String.compare a b = Eq -> a = b.
Proof. apply string_compare_eq. Qed.

Lemma colsum_ext {T : Type} (f1 f2 : T -> Q) (t : list T) :
  (forall x, f1 x == f2 x)%Q -> (colsum f1 t == colsum f2 t)%Q.
Proof.
  intros H; induction t as [|x t IH]; [reflexivity|rewrite !colsum_cons; specialize (H x); lra].
Qed.

Lemma colsum_map {T U : Type} (f1 : U -> Q) (h : T -> U) (t : list T) :
  colsum f1 (map h t) = colsum (fun x => f1 (h x)) t.
Proof. induction t as [|x t IH]; [reflexivity|cbn [map]; rewrite !colsum_cons, IH; reflexivity]. Qed.

Lemma colsum_app {T : Type} (f1 : T -> Q) (a b : list T) :
  (colsum f1 (a ++ b) == colsum f1 a + colsum f1 b)%Q.
Proof. induction a as [|x t IH]; cbn [app]; [cbn; lra|rewrite !colsum_cons; lra]. Qed.

(** X12. The sessions per channel of the traffic-sources chart add up to the total sessions of the GA snapshot. *)
Lemma traffic_sources_sum_to_sessions (df_filtered : list ga_row) :
  (colsum snd (ga_sessions_by_channel df_filtered) == snd (fst (fst (ga_snapshot df_filtered))))%Q.
Proof.
  unfold ga_sessions_by_channel, ga_snapshot; cbn [fst snd].
  pose proof (groupby_total String.compare sessions (fun a r => a + sessions r)%Q (fun a => a)
                sessions (fun _ => true) string_compare_eq_l (fun r => Qeq_refl _)
                (fun a r => Qeq_refl _) (fun r => Some (sessionDefaultChannelGroup r)) df_filtered) as H.
  unfold group_total, keyed_total in H; rewrite !filter_all_true in H; exact H.
Qed.

Lemma inject_nat_succ (n : nat) : (inject_Z (Z.of_nat (S n)) == inject_Z (Z.of_nat n) + 1)%Q.
Proof. rewrite Nat2Z.inj_succ; unfold Z.succ; rewrite inject_Z_plus; reflexivity. Qed.

Lemma colsum_join_map (a : Q) (P : string -> bool) (m : list lead) :
  (colsum fst (filter (fun r : join_row => match snd r with Some k => P k | None => false end)
                      (map (fun l => (a, Some (l_source l))) m))
   == a * inject_Z (Z.of_nat (List.length (filter (fun l => P (l_source l)) m))))%Q.
Proof.
  induction m as [|x t IH]; [cbn; ring|].
  cbn [map filter snd]; destruct (P (l_source x)); cbn [List.length].
  - rewrite colsum_cons, IH, inject_nat_succ; cbn [fst]; ring.
  - exact IH.
Qed.

Lemma join_invoice_total (P : string -> bool) (inv : Q * option string) (df_leads : list lead) :
  (colsum fst (filter (fun r : join_row => match snd r with Some k => P k | None => false end)
     (let m := filter (origin_matches (snd inv)) df_leads in
      match m with
      | [] => [(fst inv, None)]
      | _ => map (fun l => (fst inv, Some (l_source l))) m
      end))
   == fst inv * inject_Z (Z.of_nat (List.length
        (filter (fun l => origin_matches (snd inv) l && P (l_source l)) df_leads))))%Q.
Proof.
  cbv zeta; rewrite <- (filter_compose (origin_matches (snd inv)) (fun l => P (l_source l))).
  destruct (filter (origin_matches (snd inv)) df_leads) as [|x t].
  - cbn; ring.
  - apply colsum_join_map.
Qed.

Lemma revenue_by_source_filtered (P : string -> bool) (invs : list (Q * option string))
    (df_leads : list lead) :
  (colsum snd (filter (fun e => P (fst e)) (revenue_by_source (df_join invs df_leads)))
   == colsum (fun inv => fst inv * inject_Z (Z.of_nat (List.length
        (filter (fun l => origin_matches (snd inv) l && P (l_source l)) df_leads)))) invs)%Q.
Proof.
  pose proof (groupby_total String.compare (fun r : join_row => fst r) (fun a r => (a + fst r)%Q)
                (fun a => a) fst P string_compare_eq_l (fun r => Qeq_refl _)
                (fun a r => Qeq_refl _) snd (df_join invs df_leads)) as H.
  unfold group_total, keyed_total in H; unfold revenue_by_source.
  refine (Qeq_trans _ _ _ H _); clear H.
  unfold df_join; induction invs as [|inv t IH]; [reflexivity|].
  cbn [flat_map].
  rewrite filter_app, colsum_app, colsum_cons, IH, join_invoice_total; reflexivity.
Qed.

(** X14. When the invoices load (there is at least one), the revenue by source counts each invoice amount once per lead whose name equals the invoice origin, and the Meta revenue does the same for the leads with source Meta Ads. *)
Lemma revenue_by_source_weights (parse_num : string -> option Q)
    (df_revenue : list odoo_invoice) (df_leads : list lead) (amounts : list (Q * option string)) :
  clean_invoices parse_num df_revenue = Ok amounts ->
  (colsum snd (revenue_by_source (df_join amounts df_leads))
   == colsum (fun i => num_fillna0 parse_num (amount_total i)
                       * inject_Z (Z.of_nat (List.length
                           (filter (origin_matches (invoice_origin i)) df_leads)))) df_revenue)%Q /\
  (meta_revenue_of (revenue_by_source (df_join amounts df_leads))
   == colsum (fun i => num_fillna0 parse_num (amount_total i)
                       * inject_Z (Z.of_nat (List.length
                           (filter (fun l => origin_matches (invoice_origin i) l
                                             && String.eqb (l_source l) "Meta Ads") df_leads))))
             df_revenue)%Q.
Proof.
  intros Hc.
  assert (Ha : amounts = map (fun i => (num_fillna0 parse_num (amount_total i), invoice_origin i)) df_revenue)
    by (unfold clean_invoices in Hc; destruct df_revenue; [discriminate | now injection Hc as <-]).
  subst amounts; split.
  - pose proof (revenue_by_source_filtered (fun _ => true)
                  (map (fun i => (num_fillna0 parse_num (amount_total i), invoice_origin i)) df_revenue)
                  df_leads) as H.
    rewrite filter_all_true in H; refine (Qeq_trans _ _ _ H _); clear H.
    rewrite colsum_map; apply colsum_ext; intros i; cbn [fst snd].
    rewrite (filter_ext (fun l => origin_matches (invoice_origin i) l && true)
                        (origin_matches (invoice_origin i))) by (intros l; apply andb_true_r).
    reflexivity.
  - unfold meta_revenue_of.
    refine (Qeq_trans _ _ _ (revenue_by_source_filtered (fun k => String.eqb k "Meta Ads") _ _) _).
    rewrite colsum_map; reflexivity.
Qed.


Lemma str_isin_add_cols (x : string) (acc ks : list string) :
  str_isin x (add_cols acc ks) = str_isin x acc || str_isin x ks.
Proof.
  revert acc; induction ks as [|k t IH]; intros acc; cbn [add_cols].
  - unfold str_isin at 3; cbn [existsb]; rewrite orb_false_r; reflexivity.
  - rewrite IH; unfold str_isin; cbn [existsb].
    destruct (existsb (String.eqb k) acc) eqn:E.
    + destruct (String.eqb x k) eqn:Exk; [|reflexivity].
      apply String.eqb_eq in Exk; subst k; rewrite E; reflexivity.
    + rewrite existsb_app; cbn [existsb].
      destruct (String.eqb x k), (existsb (String.eqb x) acc), (existsb (String.eqb x) t); reflexivity.
Qed.

Lemma fold_add_cols_keeps {T : Type} (cf : T -> list string) (x : string) (l : list T) (acc : list string) :
  str_isin x acc = true -> str_isin x (fold_left (fun a f => add_cols a (cf f)) l acc) = true.
Proof.
  revert acc; induction l as [|f t IH]; intros acc H; cbn [fold_left]; [exact H|].
  apply IH; rewrite str_isin_add_cols, H; reflexivity.
Qed.

Lemma mail_sheet_props (parse : string -> option Z) (ws : worksheet) (f : frame) :
  mail_sheet parse ws = Some f ->
  str_isin "Date" (cols f) = true /\
  forall r, In r (rows f) -> (exists d, lookup "Date" r = VDate d) /\ lookup "SheetName" r = VStr (title ws).
Proof.
  unfold mail_sheet.
  destruct (frame_empty _ || negb _) eqn:E; [discriminate|].
  apply orb_false_iff in E as [_ E]; apply negb_false_iff in E.
  destruct (flat_map _ _) as [|r0 t] eqn:Ek; [discriminate|].
  intros H; injection H as <-; cbn [cols rows].
  assert (Hc : forall acc, str_isin "Date" acc = true ->
                          str_isin "Date" (add_cols acc ["SheetName"]) = true)
    by (intros acc Ha; rewrite str_isin_add_cols, Ha; reflexivity).
  split; [apply Hc, E|].
  intros r Hr; rewrite <- Ek in Hr; apply in_flat_map in Hr as [x [_ Hx]].
  destruct (to_datetime_coerce parse (lookup "Date" x)) as [d|]; [|destruct Hx].
  destruct Hx as [<-|[]]; split.
  - exists d; rewrite lookup_set_col_other by discriminate; apply lookup_set_col_same.
  - apply lookup_set_col_same.
Qed.

Lemma get_mail_data_props (parse : string -> option Z) (wss : list worksheet) :
  str_isin "Date" (cols (get_mail_data parse wss)) = true /\
  forall r, In r (rows (get_mail_data parse wss)) ->
    (exists d, lookup "Date" r = VDate d) /\
    (exists ws, In ws wss /\ lookup "SheetName" r = VStr (title ws)).
Proof.
  unfold get_mail_data.
  assert (Hall : forall f, In f (flat_map (fun ws => match mail_sheet parse ws with
                                                     | Some f => [f] | None => [] end) wss) ->
                   exists ws, In ws wss /\ mail_sheet parse ws = Some f).
  { intros f Hf; apply in_flat_map in Hf as [ws [Hws Hf]].
    destruct (mail_sheet parse ws) as [f'|] eqn:Ems; [|destruct Hf].
    destruct Hf as [<-|[]]; exists ws; split; assumption. }
  destruct (flat_map _ wss) as [|f0 fs] eqn:Ea; [split; [reflexivity | intros r []]|].
  cbn [cols rows]; split.
  - destruct (Hall f0 (or_introl eq_refl)) as [ws [_ Hms]].
    cbn [fold_left]; apply fold_add_cols_keeps.
    rewrite str_isin_add_cols, (proj1 (mail_sheet_props _ _ _ Hms)), orb_true_r; reflexivity.
  - intros r Hr; apply in_flat_map in Hr as [f [Hf Hr]].
    destruct (Hall f Hf) as [ws [Hws Hms]].
    destruct (proj2 (mail_sheet_props _ _ _ Hms) r Hr) as [Hd Hs].
    split; [exact Hd | exists ws; split; assumption].
Qed.

Lemma count_key_pos {K R : Type} (cmp : K -> K -> comparison) (key : R -> option K) (k : K) (l : list R) :
  (0 < count_key cmp key k l)%nat -> exists r k', In r l /\ key r = Some k' /\ cmp k k' = Eq.
Proof.
  unfold count_key; induction l as [|x t IH]; cbn [filter]; [cbn; lia|].
  destruct (key x) as [k'|] eqn:Ek.
  - destruct (cmp k k') eqn:Ec.
    + intros _; exists x, k'; split; [left; reflexivity | split; assumption].
    + intros H; destruct (IH H) as [r [k'' [? ?]]]; exists r, k''; split; [right|]; assumption.
    + intros H; destruct (IH H) as [r [k'' [? ?]]]; exists r, k''; split; [right|]; assumption.
  - intros H; destruct (IH H) as [r [k'' [? ?]]]; exists r, k''; split; [right|]; assumption.
Qed.

Lemma filter_all_in {T : Type} (p : T -> bool) (l : list T) :
  (forall x, In x l -> p x = true) -> filter p l = l.
Proof.
  induction l as [|x t IH]; intros H; cbn [filter]; [reflexivity|].
  rewrite (H x (or_introl eq_refl)), IH; [reflexivity|intros y Hy; apply H; right; exact Hy].
Qed.

Lemma mail_data_timeline_total (parse : string -> option Z) (wss : list worksheet) :
  exists tl, mail_timeline (get_mail_data parse wss) = Ok tl /\
             sum_counts tl = List.length (rows (get_mail_data parse wss)).
Proof.
  destruct (get_mail_data_props parse wss) as [Hc Hr].
  unfold mail_timeline, getcol; rewrite Hc; cbn [bind].
  eexists; split; [reflexivity|].
  unfold groupby_agg; rewrite groupby_size_sum_from; cbn [sum_counts fold_right].
  rewrite filter_all_in, length_map; [lia|].
  intros v Hv; apply in_map_iff in Hv as [r [<- Hin]].
  destruct (proj1 (Hr r Hin)) as [d Hd]; rewrite Hd; reflexivity.
Qed.

Lemma filterM_total {A : Type} (p : A -> result bool) (l : list A) :
  (forall x, In x l -> exists b, p x = Ok b) ->
  exists ys, filterM p l = Ok ys /\ forall y, In y ys -> In y l /\ p y = Ok true.
Proof.
  induction l as [|x t IH]; intros H; [exists []; split; [reflexivity | intros y []]|].
  destruct (H x (or_introl eq_refl)) as [b Hb].
  destruct IH as [ys [Hys Hin]]; [intros y Hy; apply H; right; exact Hy|].
  cbn [filterM]; rewrite Hb; cbn [bind]; rewrite Hys; cbn [bind].
  exists (if b then x :: ys else ys); split; [reflexivity|].
  intros y Hy; destruct b.
  - destruct Hy as [<-|Hy]; [split; [left; reflexivity | exact Hb]|].
    destruct (Hin y Hy); split; [right|]; assumption.
  - destruct (Hin y Hy); split; [right|]; assumption.
Qed.

(** X4. Filtering the mail data by a two-date range never raises: it keeps a subset of the rows, each dated within the range, and the timeline of the result has only days within the range. *)
Lemma mail_filter_range (parse : string -> option Z) (wss : list worksheet) (start_m end_m : Z) :
  exists f, mail_filter [start_m; end_m] (get_mail_data parse wss) = Ok f /\
    incl (rows f) (rows (get_mail_data parse wss)) /\
    (forall r, In r (rows f) -> exists d, lookup "Date" r = VDate d /\ start_m <= d <= end_m) /\
    (exists tl, mail_timeline f = Ok tl /\ forall d n, In (d, n) tl -> start_m <= d <= end_m).
Proof.
  destruct (get_mail_data_props parse wss) as [Hc Hr].
  set (df := get_mail_data parse wss) in *.
  unfold mail_filter; rewrite Hc.
  match goal with
  | |- context [filterM ?q (rows df)] =>
      destruct (filterM_total q (rows df)) as [ys [Hys Hin]];
      [intros r Hrr; destruct (proj1 (Hr r Hrr)) as [d Hd]; rewrite Hd; cbn; eexists; reflexivity|]
  end.
  rewrite Hys; cbn [bind].
  exists (mk_frame (cols df) ys); split; [reflexivity|].
  assert (Hrange : forall r, In r ys -> exists d, lookup "Date" r = VDate d /\ start_m <= d <= end_m).
  { intros r Hry; destruct (Hin r Hry) as [Hrr Hp].
    destruct (proj1 (Hr r Hrr)) as [d Hd]; exists d; split; [exact Hd|].
    rewrite Hd in Hp; cbn in Hp; injection Hp as Hp.
    apply andb_true_iff in Hp as [H1 H2]; apply Z.leb_le in H1, H2; lia. }
  cbn [rows]; split; [intros r Hry; exact (proj1 (Hin r Hry))|].
  split; [exact Hrange|].
  unfold mail_timeline, getcol; cbn [cols rows]; rewrite Hc; cbn [bind].
  eexists; split; [reflexivity|].
  intros d n Hdn.
  destruct (groupby_days date_key (map (lookup "Date") ys)) as [_ Hi].
  apply Hi in Hdn as [-> Hpos].
  apply count_key_pos in Hpos as [v [k' [Hv [Hk Heq]]]].
  apply Z.compare_eq_iff in Heq; subst k'.
  apply in_map_iff in Hv as [r [<- Hry]].
  destruct (Hrange r Hry) as [d' [Hd' Hb]]; rewrite Hd' in Hk; injection Hk as ->; exact Hb.
Qed.

(** Rows of [run_ga_report] *)

Lemma py_nth_Ok {A : Type} (l : list A) (i : nat) (k d : A) :
  py_nth l i = Ok k -> (i < List.length l)%nat /\ k = nth i l d.
Proof.
  revert i; induction l as [|x t IH]; intros [|i] H; cbn in H; try discriminate.
  - injection H as <-; split; [cbn; lia | reflexivity].
  - apply IH in H as [H1 H2]; split; [cbn; lia | exact H2].
Qed.

Lemma py_nth_lt {A : Type} (l : list A) (i : nat) (d : A) :
  (i < List.length l)%nat -> py_nth l i = Ok (nth i l d).
Proof.
  revert i; induction l as [|x t IH]; intros [|i] H; cbn in *; try lia; [reflexivity|].
  apply IH; lia.
Qed.

Lemma py_nth_ge {A : Type} (l : list A) (i : nat) :
  (List.length l <= i)%nat -> py_nth l i = Raise IndexError.
Proof.
  revert i; induction l as [|x t IH]; intros [|i] H; cbn in *; try lia; try reflexivity.
  apply IH; lia.
Qed.

Lemma dict_comp_cases (names vals : list string) (i : nat) (acc : row) :
  (exists r, dict_comp names vals i acc = Ok r) \/ dict_comp names vals i acc = Raise IndexError.
Proof.
  revert i acc; induction vals as [|v t IH]; intros i acc; cbn [dict_comp]; [left; eexists; reflexivity|].
  destruct (Nat.lt_ge_cases i (List.length names)) as [Hl|Hg].
  - rewrite (py_nth_lt _ _ EmptyString Hl); cbn [bind]; apply IH.
  - rewrite (py_nth_ge _ _ Hg); right; reflexivity.
Qed.

Lemma dict_comp_raise (names vals : list string) (i : nat) (acc : row) :
  (i <= List.length names)%nat -> (List.length names < i + List.length vals)%nat ->
  dict_comp names vals i acc = Raise IndexError.
Proof.
  revert i acc; induction vals as [|v t IH]; intros i acc H1 H2; cbn [List.length] in H2; [lia|].
  cbn [dict_comp].
  destruct (Nat.lt_ge_cases i (List.length names)) as [Hl|Hg].
  - rewrite (py_nth_lt _ _ EmptyString Hl); cbn [bind]; apply IH; lia.
  - rewrite (py_nth_ge _ _ Hg); reflexivity.
Qed.

Lemma dict_comp_ok (names vals : list string) (i : nat) (acc : row) :
  (i + List.length vals <= List.length names)%nat -> exists r, dict_comp names vals i acc = Ok r.
Proof.
  revert i acc; induction vals as [|v t IH]; intros i acc H; cbn [dict_comp]; [eexists; reflexivity|].
  cbn [List.length] in H; rewrite (py_nth_lt _ _ EmptyString) by lia; cbn [bind]; apply IH; lia.
Qed.

Lemma in_keys_set_col (c x : string) (v : value) (r : row) :
  In x (map fst (set_col c v r)) <-> c = x \/ In x (map fst r).
Proof.
  induction r as [|[k w] t IH]; cbn [set_col map fst].
  - cbn; tauto.
  - destruct (String.eqb k c) eqn:E; cbn [map fst In].
    + apply String.eqb_eq in E; subst k; tauto.
    + rewrite IH; tauto.
Qed.

Lemma set_col_nodup (c : string) (v : value) (r : row) :
  NoDup (map fst r) -> NoDup (map fst (set_col c v r)).
Proof.
  induction r as [|[k w] t IH]; cbn [set_col map fst]; intros H.
  - constructor; [intros []|constructor].
  - apply NoDup_cons_iff in H as [Hk Ht].
    destruct (String.eqb k c) eqn:E; cbn [map fst]; constructor; auto.
    rewrite in_keys_set_col; intros [<-|Hin]; [|contradiction].
    rewrite String.eqb_refl in E; discriminate.
Qed.

Lemma dict_comp_keys (names vals : list string) (i : nat) (acc r : row) :
  dict_comp names vals i acc = Ok r -> NoDup (map fst acc) ->
  NoDup (map fst r) /\ forall x, In x (map fst r) -> In x (map fst acc) \/ In x names.
Proof.
  revert i acc; induction vals as [|v t IH]; intros i acc H Hnd; cbn [dict_comp] in H.
  - injection H as <-; split; [exact Hnd | tauto].
  - destruct (py_nth names i) as [k|e] eqn:Ek; cbn [bind] in H; [|discriminate].
    apply (py_nth_Ok _ _ _ EmptyString) in Ek as [Hi ->].
    destruct (IH _ _ H (set_col_nodup _ _ _ Hnd)) as [H1 H2]; split; [exact H1|].
    intros x Hx; destruct (H2 x Hx) as [Hs|Hs]; [|right; exact Hs].
    apply in_keys_set_col in Hs as [<-|Hs]; [right; apply nth_In; exact Hi | left; exact Hs].
Qed.

Lemma nth_in_skipn {A : Type} (l : list A) (i : nat) (d : A) :
  (i < List.length l)%nat -> In (nth i l d) (skipn i l).
Proof.
  revert i; induction l as [|x t IH]; intros [|i] H; cbn in *; try lia; [left; reflexivity|].
  apply IH; lia.
Qed.

Lemma skipn_S_incl {A : Type} (l : list A) (i : nat) : incl (skipn (S i) l) (skipn i l).
Proof.
  revert i; induction l as [|x t IH]; intros [|i]; cbn; [apply incl_refl|apply incl_refl| |].
  - intros y Hy; right; exact Hy.
  - apply IH.
Qed.

Lemma nodup_nth_not_after {A : Type} (l : list A) (i : nat) (d : A) :
  NoDup l -> (i < List.length l)%nat -> ~ In (nth i l d) (skipn (S i) l).
Proof.
  revert i; induction l as [|x t IH]; intros [|i] Hnd H; cbn in *; try lia;
    apply NoDup_cons_iff in Hnd as [Hx Ht]; [exact Hx|].
  apply IH; [exact Ht | lia].
Qed.

Lemma dict_comp_lookup (names vals : list string) (i : nat) (acc r : row) :
  NoDup names -> dict_comp names vals i acc = Ok r ->
  (forall j, (j < List.length vals)%nat ->
     lookup (nth (i + j) names EmptyString) r = VStr (nth j vals EmptyString)) /\
  (forall x, ~ In x (skipn i names) -> lookup x r = lookup x acc).
Proof.
  intros Hnd; revert i acc; induction vals as [|v t IH]; intros i acc H; cbn [dict_comp] in H.
  - injection H as <-; split; [cbn; lia | reflexivity].
  - destruct (py_nth names i) as [k|e] eqn:Ek; cbn [bind] in H; [|discriminate].
    apply (py_nth_Ok _ _ _ EmptyString) in Ek as [Hi ->].
    destruct (IH _ _ H) as [H1 H2]; split.
    + intros [|j] Hj.
      * rewrite Nat.add_0_r, H2 by (apply nodup_nth_not_after; assumption).
        apply lookup_set_col_same.
      * rewrite <- Nat.add_succ_comm; apply H1; cbn in Hj; lia.
    + intros x Hx; rewrite H2 by (intros Hs; apply Hx, skipn_S_incl, Hs).
      apply lookup_set_col_other; intros <-; apply Hx, nth_in_skipn, Hi.
Qed.

Lemma lookup_notin (x : string) (r : row) : ~ In x (map fst r) -> lookup x r = VNaN.
Proof.
  induction r as [|[k w] t IH]; cbn; intros H; [reflexivity|].
  destruct (String.eqb k x) eqn:E; [apply String.eqb_eq in E; tauto | apply IH; tauto].
Qed.

Lemma dict_update_lookup (d upd : row) (x : string) :
  NoDup (map fst upd) ->
  lookup x (dict_update d upd) = if in_dec string_dec x (map fst upd) then lookup x upd else lookup x d.
Proof.
  unfold dict_update; revert d; induction upd as [|[k v] t IH]; intros d Hnd; cbn [fold_left map fst].
  - destruct (in_dec string_dec x []) as [[]|]; reflexivity.
  - apply NoDup_cons_iff in Hnd as [Hk Ht]; rewrite IH by exact Ht; cbn [fst snd].
    destruct (in_dec string_dec x (map fst t)) as [Hin|Hout];
      destruct (in_dec string_dec x (k :: map fst t)) as [Hin'|Hout']; cbn [lookup].
    + destruct (String.eqb k x) eqn:E; [apply String.eqb_eq in E; subst; contradiction | reflexivity].
    + exfalso; apply Hout'; right; exact Hin.
    + destruct Hin' as [<-|Hin']; [|contradiction].
      rewrite String.eqb_refl; apply lookup_set_col_same.
    + apply lookup_set_col_other; intros <-; apply Hout'; left; reflexivity.
Qed.

(** X15. A row of [run_ga_report] raises IndexError when the response has more values than requested names; with distinct names and matching lengths it maps each metric to its value and each dimension not shadowed by a metric to its value. *)
Lemma ga_report_row_spec (dimensions metrics dimension_values metric_values : list string) :
  ((List.length dimensions < List.length dimension_values)%nat \/
   (List.length metrics < List.length metric_values)%nat ->
   ga_report_row dimensions metrics dimension_values metric_values = Raise IndexError) /\
  (NoDup dimensions -> NoDup metrics ->
   List.length dimension_values = List.length dimensions ->
   List.length metric_values = List.length metrics ->
   exists r, ga_report_row dimensions metrics dimension_values metric_values = Ok r /\
     (forall i, (i < List.length metrics)%nat ->
        lookup (nth i metrics EmptyString) r = VStr (nth i metric_values EmptyString)) /\
     (forall i, (i < List.length dimensions)%nat -> ~ In (nth i dimensions EmptyString) metrics ->
        lookup (nth i dimensions EmptyString) r = VStr (nth i dimension_values EmptyString))).
Proof.
  unfold ga_report_row; split.
  - intros [H|H].
    + rewrite dict_comp_raise by (cbn; lia); reflexivity.
    + destruct (dict_comp_cases dimensions dimension_values 0 []) as [[res ->]| ->]; [|reflexivity].
      cbn [bind]; rewrite dict_comp_raise by (cbn; lia); reflexivity.
  - intros Hd Hm Hld Hlm.
    destruct (dict_comp_ok dimensions dimension_values 0 []) as [res Hres]; [lia|].
    destruct (dict_comp_ok metrics metric_values 0 []) as [upd Hupd]; [lia|].
    rewrite Hres, Hupd; cbn [bind]; eexists; split; [reflexivity|].
    destruct (dict_comp_keys _ _ _ _ _ Hupd (NoDup_nil _)) as [Hund Hukeys].
    destruct (dict_comp_lookup _ _ _ _ _ Hm Hupd) as [Hu1 _].
    destruct (dict_comp_lookup _ _ _ _ _ Hd Hres) as [Hr1 _].
    split.
    + intros i Hi; pose proof (Hu1 i ltac:(lia)) as E; cbn [Nat.add] in E.
      rewrite dict_update_lookup by exact Hund.
      destruct (in_dec string_dec _ (map fst upd)) as [_|Hout]; [exact E|].
      rewrite lookup_notin in E by exact Hout; discriminate.
    + intros i Hi Hnot; rewrite dict_update_lookup by exact Hund.
      destruct (in_dec string_dec _ (map fst upd)) as [Hin|_].
      * destruct (Hukeys _ Hin) as [Hn|Hm']; [destruct Hn | contradiction].
      * pose proof (Hr1 i ltac:(lia)) as E; cbn [Nat.add] in E; exact E.
Qed.

Lemma Forall2_In_r {A B : Type} (P : A -> B -> Prop) (l1 : list A) (l2 : list B) (y : B) :
  Forall2 P l1 l2 -> In y l2 -> exists x, In x l1 /\ P x y.
Proof.
  induction 1 as [|x y' t1 t2 Hxy _ IH]; intros Hy; [destruct Hy|].
  destruct Hy as [<-|Hy]; [exists x; split; [left|]; auto|].
  destruct (IH Hy) as [x' [? ?]]; exists x'; split; [right|]; auto.
Qed.

Lemma ao_filter_incl (date_range : list Z) (sources status_list : list cell) (df : list ao_row) :
  incl (ao_filter date_range sources status_list df) df.
Proof.
  unfold ao_filter; destruct date_range as [|a [|b [|c t]]]; try apply incl_refl.
  intros r Hr; apply filter_In in Hr; tauto.
Qed.

(** X16. On the data read by [get_data], the per-source counts of the filtered Appels d'Offres rows add up to the number of filtered rows. *)
Lemma source_counts_cover_filtered (parse : string -> option Z) (parse_num : string -> option Q)
    (data : list raw_ao) (df : list ao_row)
    (date_range : list Z) (sources status_list : list cell) :
  get_data parse parse_num data = Ok df ->
  sum_counts (ao_source_counts (ao_filter date_range sources status_list df))
  = List.length (ao_filter date_range sources status_list df).
Proof.
  intros H; unfold ao_source_counts, groupby_agg; rewrite groupby_size_sum_from; cbn [sum_counts fold_right].
  rewrite filter_all_in; [reflexivity|].
  intros r Hr; apply ao_filter_incl in Hr.
  destruct (get_data_Ok _ _ _ _ H) as [_ [_ [_ HF]]].
  destruct (Forall2_In_r _ _ _ _ HF Hr) as [x [Hx [_ [Hs _]]]].
  rewrite Hs.
  apply filter_In in Hx as [_ Hx]; apply andb_true_iff in Hx as [_ Hx].
  destruct (rSource x); [reflexivity | discriminate].
Qed.


Lemma fb_account_id_prefixed_witness :
  String.prefix "act_" "act_42" = true /\ fb_account_id "act_42" = "act_42".
Proof.
  assert (H : String.prefix "act_" "act_42" = true) by reflexivity.
  split; [exact H|].
  exact (proj2 (proj2 (fb_account_id_prefixed "act_42")) H).
Defined.

(** X3. The frame built by [get_mail_data] has a Date column, every row holds a parsed date and the SheetName of one of the input worksheets, and the daily timeline counts add up to the number of rows. *)
Lemma mail_data_invariants (parse : string -> option Z) (wss : list worksheet) :
  str_isin "Date" (cols (get_mail_data parse wss)) = true /\
  (forall r, In r (rows (get_mail_data parse wss)) ->
     (exists d, lookup "Date" r = VDate d) /\
     (exists ws, In ws wss /\ lookup "SheetName" r = VStr (title ws))) /\
  (exists tl, mail_timeline (get_mail_data parse wss) = Ok tl /\
              sum_counts tl = List.length (rows (get_mail_data parse wss))).
Proof.
  destruct (get_mail_data_props parse wss) as [Hc Hr].
  split; [exact Hc|]; split; [exact Hr|].
  apply mail_data_timeline_total.
Qed.

Definition x3_sheets : list worksheet :=
  [mk_worksheet "Relance" [[("Date", VStr "2024-01-02"); ("Email Envoyé ", VStr "Oui")];
                           [("Date", VStr "pas de date")]]].

Lemma mail_data_invariants_witness :
  In [("Date", VDate 19724); ("Email Envoyé ", VStr "Oui"); ("SheetName", VStr "Relance")]
     (rows (get_mail_data parse_iso x3_sheets)) /\
  exists ws, In ws x3_sheets /\
    lookup "SheetName" [("Date", VDate 19724); ("Email Envoyé ", VStr "Oui"); ("SheetName", VStr "Relance")]
    = VStr (title ws).
Proof.
  assert (H : In [("Date", VDate 19724); ("Email Envoyé ", VStr "Oui"); ("SheetName", VStr "Relance")]
                 (rows (get_mail_data parse_iso x3_sheets))) by (vm_compute; left; reflexivity).
  split; [exact H|].
  exact (proj2 (proj1 (proj2 (mail_data_invariants parse_iso x3_sheets)) _ H)).
Defined.

Definition x9_row (s : string) : ao_row := mk_ao_row (Some 19723) (Some "Site") (Some s) 1.

Definition x9_df : list ao_row := [x9_row "Accepté"; x9_row "Opportunité"; x9_row "Opportunité"].

Lemma opportunity_rate_above_100_witness :
  (0 < count_rows (status_is "Accepté") x9_df)%nat /\
  (count_rows (status_is "Accepté") x9_df < count_rows (status_is "Opportunité") x9_df)%nat /\
  (let '(_, _, rate_opp) := conversion_kpis x9_df in (100 < rate_opp)%Q).
Proof.
  assert (H1 : (0 < count_rows (status_is "Accepté") x9_df)%nat) by (apply Nat.ltb_lt; vm_compute; reflexivity).
  assert (H2 : (count_rows (status_is "Accepté") x9_df < count_rows (status_is "Opportunité") x9_df)%nat)
    by (apply Nat.ltb_lt; vm_compute; reflexivity).
  split; [exact H1|]; split; [exact H2|].
  exact (opportunity_rate_above_100 x9_df H1 H2).
Defined.

Definition x10_raw : list raw_ao :=
  [mk_raw_ao (Some "2024-01-01") (Some "Site") (Some "Refus") (Some "2");
   mk_raw_ao (Some "2024-01-02") None (Some "Refus") None;
   mk_raw_ao (Some "2024-01-02") (Some "Mail") (Some "Accepté") None].

Definition x10_df : list ao_row :=
  [mk_ao_row (Some 19723) (Some "Site") (Some "Refus") 2;
   mk_ao_row (Some 19724) (Some "Mail") (Some "Accepté") 1].

Lemma source_counts_cover_filtered_witness :
  get_data parse_iso parse_dec x10_raw = Ok x10_df /\
  sum_counts (ao_source_counts (ao_filter [19723; 19724] [Some "Site"; Some "Mail"] [Some "Refus"] x10_df))
  = List.length (ao_filter [19723; 19724] [Some "Site"; Some "Mail"] [Some "Refus"] x10_df).
Proof.
  assert (H : get_data parse_iso parse_dec x10_raw = Ok x10_df) by (vm_compute; reflexivity).
  split; [exact H|].
  exact (source_counts_cover_filtered parse_iso parse_dec x10_raw x10_df _ _ _ H).
Defined.

Definition x11_row (a n : Q) : ga_row := mk_ga_row "20240101" "Organic Search" "France" "/" a n 4 9 12 (1#2).

Definition x11_df : list ga_row := [x11_row 10 4; x11_row 5 5].

Lemma ga_returning_rate_witness :
  Forall (fun r => 0 <= newUsers r)%Q x11_df /\ (snd (ga_snapshot x11_df) <= 100)%Q.
Proof.
  assert (H : Forall (fun r => 0 <= newUsers r)%Q x11_df)
    by (repeat constructor; unfold Qle; simpl; lia).
  split; [exact H|].
  exact (proj1 (ga_returning_rate x11_df) H).
Defined.

Lemma engagement_rate_mean_witness :
  x11_df <> [] /\ Forall (fun r => 0 <= engagementRate r <= 1)%Q x11_df /\
  exists q, avg_engagement_rate x11_df = Fin q /\ (0 <= q <= 100)%Q.
Proof.
  assert (H1 : x11_df <> []) by discriminate.
  assert (H2 : Forall (fun r => 0 <= engagementRate r <= 1)%Q x11_df)
    by (repeat constructor; unfold Qle; simpl; lia).
  split; [exact H1|]; split; [exact H2|].
  exact (proj2 (engagement_rate_mean x11_df) H1 H2).
Defined.

Lemma ga_report_row_spec_witness :
  ga_report_row ["date"] ["activeUsers"] ["20240101"; "FR"] ["3"] = Raise IndexError /\
  exists r, ga_report_row ["date"; "country"] ["activeUsers"] ["20240101"; "FR"] ["3"] = Ok r /\
    lookup "activeUsers" r = VStr "3".
Proof.
  split.
  - apply (proj1 (ga_report_row_spec ["date"] ["activeUsers"] ["20240101"; "FR"] ["3"])).
    left; cbn; lia.
  - destruct (proj2 (ga_report_row_spec ["date"; "country"] ["activeUsers"] ["20240101"; "FR"] ["3"]))
      as [r [Hr [Hm _]]].
    + repeat constructor; cbn; intuition discriminate.
    + repeat constructor; cbn; intuition discriminate.
    + reflexivity.
    + reflexivity.
    + exists r; split; [exact Hr|]; exact (Hm 0%nat ltac:(cbn; lia)).
Defined.

(** Two invoices, one of them without an origin, and two leads of the
    first invoice's name. *)
Definition x14_invoices : list odoo_invoice :=
  [mk_odoo_invoice (VStr "100") (Some "SO1"); mk_odoo_invoice (VStr "50") None].

Definition x14_leads : list lead :=
  [mk_lead "SO1" "Meta Ads" "Won" 0; mk_lead "SO1" "Website" "Won" 0].

Lemma revenue_by_source_weights_witness :
  clean_invoices parse_dec x14_invoices = Ok [(100%Q, Some "SO1"); (50%Q, None)] /\
  (colsum snd (revenue_by_source (df_join [(100%Q, Some "SO1"); (50%Q, None)] x14_leads)) == 200)%Q /\
  (meta_revenue_of (revenue_by_source (df_join [(100%Q, Some "SO1"); (50%Q, None)] x14_leads)) == 100)%Q.
Proof.
  assert (H : clean_invoices parse_dec x14_invoices = Ok [(100%Q, Some "SO1"); (50%Q, None)])
    by (vm_compute; reflexivity).
  destruct (revenue_by_source_weights parse_dec x14_invoices x14_leads _ H) as [H1 H2].
  split; [exact H|]; split.
  - refine (Qeq_trans _ _ _ H1 _); vm_compute; reflexivity.
  - refine (Qeq_trans _ _ _ H2 _); vm_compute; reflexivity.
Defined.
